(** * travel_agent.py: session memory, date resolution and intent routing

    A shallow embedding of [src/travel_agent.py].  The session memory
    ([AgentMemory]), the date resolver and the orchestrator
    ([TravelAgentSystem]) are translated method by method; the language
    model, the clock and the uuid generator are inputs gathered in a
    [World] record, and every call that leaves the orchestrator is written
    to a journal so that statements of the form "the collaborator is not
    invoked" can be read off the result.

    Text is modelled by [string] (one [ascii] per character): [str.lower],
    [str.upper], [str.strip] and the regular expression class [\d] are the
    ones Python has on ASCII text. *)

From stdpp Require Import gmap strings list fin_maps pretty.
From Stdlib Require Import ZArith Lia Strings.Ascii.

Set Warnings "-register-all".
#[local] Open Scope Z_scope.

(** ** Python strings *)

Module PyStr.

Definition code (c : ascii) : Z := Z.of_N (Ascii.N_of_ascii c).

Definition chr (z : Z) : ascii := Ascii.ascii_of_N (Z.to_N z).

Definition is_upper (c : ascii) : bool := (65 <=? code c) && (code c <=? 90).

Definition is_lower (c : ascii) : bool := (97 <=? code c) && (code c <=? 122).

(** [\d] on ASCII text. *)
Definition is_digit (c : ascii) : bool := (48 <=? code c) && (code c <=? 57).

(** [str.isspace] on ASCII text. *)
Definition is_space (c : ascii) : bool :=
  (code c =? 32) || ((9 <=? code c) && (code c <=? 13))
  || ((28 <=? code c) && (code c <=? 31)).

Definition lower_char (c : ascii) : ascii :=
  if is_upper c then chr (code c + 32) else c.

Definition upper_char (c : ascii) : ascii :=
  if is_lower c then chr (code c - 32) else c.

Fixpoint map_chars (f : ascii -> ascii) (s : string) : string :=
  match s with
  | EmptyString => EmptyString
  | String c s' => String (f c) (map_chars f s')
  end.

Fixpoint filter_chars (keep : ascii -> bool) (s : string) : string :=
  match s with
  | EmptyString => EmptyString
  | String c s' =>
      if keep c then String c (filter_chars keep s') else filter_chars keep s'
  end.

(** [s.lower()] and [s.upper()]. *)
Definition lower (s : string) : string := map_chars lower_char s.
Definition upper (s : string) : string := map_chars upper_char s.

(** [s.replace(" ", "")]: every U+0020 goes, nothing else does. *)
Definition remove_spaces (s : string) : string :=
  filter_chars (fun c => negb (code c =? 32)) s.

(** [s.startswith(p)]. *)
Fixpoint starts_with (p s : string) : bool :=
  match p, s with
  | EmptyString, _ => true
  | String _ _, EmptyString => false
  | String a p', String b s' => if decide (a = b) then starts_with p' s' else false
  end.

(** [q in s]: [q] occurs in [s] as a contiguous substring. *)
Fixpoint contains (q s : string) : bool :=
  starts_with q s ||
  match s with
  | EmptyString => false
  | String _ s' => contains q s'
  end.

Fixpoint drop_while (p : ascii -> bool) (s : string) : string :=
  match s with
  | EmptyString => EmptyString
  | String c s' => if p c then drop_while p s' else s
  end.

(** [s.strip()]. *)
Definition strip (s : string) : string :=
  String.rev (drop_while is_space (String.rev (drop_while is_space s))).

(** [s[:n]]. *)
Fixpoint take (n : nat) (s : string) : string :=
  match n, s with
  | S n', String c s' => String c (take n' s')
  | _, _ => EmptyString
  end.

(** [sep.join(parts)]. *)
Fixpoint join (sep : string) (parts : list string) : string :=
  match parts with
  | [] => EmptyString
  | [p] => p
  | p :: rest => p +:+ sep +:+ join sep rest
  end.

Definition newline : string := String (chr 10) EmptyString.

End PyStr.

(** ** Python values, exceptions and the method monad *)

(** The values [json.loads] produces (floats apart), which is what the
    slots of an interpretation payload hold. *)
Inductive pyval :=
  | PNone
  | PBool (b : bool)
  | PInt (z : Z)
  | PStr (s : string)
  | PList (l : list pyval)
  | PDict (d : gmap string pyval).

(** [bool(v)], as [if not v] evaluates it. *)
Definition truthy (v : pyval) : bool :=
  match v with
  | PNone => false
  | PBool b => b
  | PInt z => negb (z =? 0)
  | PStr s => negb (bool_decide (s = EmptyString))
  | PList l => negb (bool_decide (l = []))
  | PDict d => negb (bool_decide (d = ∅))
  end.

(** [v == s] for a string literal [s]. *)
Definition eq_str (v : pyval) (s : string) : bool :=
  match v with
  | PStr t => bool_decide (t = s)
  | _ => false
  end.

Inductive exn :=
  | KeyError (key : string)
  | AttributeError (attr : string)
  | OverflowError
  | ServiceError.

Inductive result (A : Type) :=
  | Ok (a : A)
  | Raise (e : exn).
Arguments Ok {A} a.
Arguments Raise {A} e.

(** A method over an object of state [S]: it returns or raises, and leaves
    a state behind either way. *)
Definition M (S A : Type) : Type := S -> result A * S.

Definition ret {S A} (a : A) : M S A := fun s => (Ok a, s).

Definition raise {S A} (e : exn) : M S A := fun s => (Raise e, s).

Definition bind {S A B} (c : M S A) (k : A -> M S B) : M S B :=
  fun s =>
    match c s with
    | (Ok a, s') => k a s'
    | (Raise e, s') => (Raise e, s')
    end.

Definition get {S} : M S S := fun s => (Ok s, s).

Definition modify {S} (f : S -> S) : M S unit := fun s => (Ok tt, f s).

Definition lift {S A} (r : result A) : M S A := fun s => (r, s).

Declare Scope method_scope.
Delimit Scope method_scope with method.
Notation "'let*' x ':=' c 'in' k" := (bind c (fun x => k))
  (at level 10, x pattern, c at level 100, k at level 200) : method_scope.
Notation "c ';;' k" := (bind c (fun _ => k))
  (at level 100, k at level 200, right associativity) : method_scope.
#[local] Open Scope method_scope.

(** [for x in xs: body(x)]. *)
Fixpoint for_each {S A} (xs : list A) (body : A -> M S unit) : M S unit :=
  match xs with
  | [] => ret tt
  | x :: rest => body x ;; for_each rest body
  end.

(** [d[k]] on a dict. *)
Definition getitem {S V} (d : gmap string V) (k : string) : M S V :=
  match d !! k with
  | Some v => ret v
  | None => raise (KeyError k)
  end.

(** [v.get(k, default)]: only a dict has the method. *)
Definition py_get (v : pyval) (k : string) (default : pyval) : result pyval :=
  match v with
  | PDict d => Ok (match d !! k with Some x => x | None => default end)
  | _ => Raise (AttributeError "get")
  end.

(** [v.lower()]: only a string has the method. *)
Definition py_lower (v : pyval) : result string :=
  match v with
  | PStr s => Ok (PyStr.lower s)
  | _ => Raise (AttributeError "lower")
  end.

(** ** Price parsing (update_cache, lines 63-66) *)

(** [re.sub(r'[^\d]', '', s)]. *)
Definition re_sub_non_digits (s : string) : string :=
  PyStr.filter_chars PyStr.is_digit s.

Definition digit_value (c : ascii) : Z := PyStr.code c - 48.

Fixpoint int_digits_from (acc : Z) (s : string) : Z :=
  match s with
  | EmptyString => acc
  | String c s' => int_digits_from (10 * acc + digit_value c) s'
  end.

(** [sys.int_info.default_max_str_digits]: the longest digit string [int]
    converts.  The program leaves the limit at its default. *)
Definition int_max_str_digits : Z := 4300.

(** [int(s)] on a string of decimal digits, the only strings update_cache
    gives it.  [None] stands for ValueError, raised on the empty string and
    on a string of more digits than the limit, leading zeros counted. *)
Definition py_int (s : string) : option Z :=
  match s with
  | EmptyString => None
  | String _ _ =>
      if int_max_str_digits <? Z.of_nat (String.length s) then None
      else Some (int_digits_from 0 s)
  end.

Definition parse_price (price : string) : Z :=
  match py_int (re_sub_non_digits price) with
  | Some n => n
  | None => 999999
  end.

(** ** Shared memory (section 2 of the source) *)

(** The dataclass declares every field but [price] as [str].  [origin] and
    [destination] hold what the caller of update_cache passes, which
    _handle_search takes from the payload unchecked, so they are values. *)
Record FlightRecord := {
  flight_id : string;
  airline : string;
  price : Z;
  raw_price : string;
  departure : string;
  origin : pyval;
  destination : pyval;
}.

Record AgentMemory := {
  flight_cache : list FlightRecord;
  last_search_context : gmap string pyval;
}.

(** [AgentMemory.__init__]. *)
Definition AgentMemory_init : AgentMemory :=
  {| flight_cache := []; last_search_context := ∅ |}.

Definition set_flight_cache (c : list FlightRecord) (m : AgentMemory) : AgentMemory :=
  {| flight_cache := c; last_search_context := last_search_context m |}.

(** [self.flight_cache.append(record)]. *)
Definition append_record (r : FlightRecord) (m : AgentMemory) : AgentMemory :=
  set_flight_cache (flight_cache m ++ [r]) m.

(** An offer payload: a dict from field names to display strings. *)
Abbreviation raw_offer := (gmap string string).

(** The body of the loop of update_cache, lines 62-77. *)
Definition update_cache_body (origin dest : pyval) (f : raw_offer) : M AgentMemory unit :=
  let* p := getitem f "price" in
  let price_int := parse_price p in
  let* fid := getitem f "flight_id" in
  let* al := getitem f "airline" in
  let* rp := getitem f "price" in
  let* dep := getitem f "departure_time" in
  let record :=
    {| flight_id := fid; airline := al; price := price_int; raw_price := rp;
       departure := dep; origin := origin; destination := dest |} in
  modify (append_record record).

Definition update_cache (raw_flights : list raw_offer) (origin dest : pyval)
  : M AgentMemory unit :=
  modify (set_flight_cache []) ;;
  for_each raw_flights (update_cache_body origin dest).

Definition normalize (s : string) : string :=
  PyStr.remove_spaces (PyStr.lower s).

(** The loop of find_flight_by_airline over the rest of the cache. *)
Fixpoint find_by_airline_in (normalized_query : string) (cache : list FlightRecord)
  : option FlightRecord :=
  match cache with
  | [] => None
  | flight :: rest =>
      if PyStr.contains normalized_query (normalize (airline flight))
      then Some flight
      else find_by_airline_in normalized_query rest
  end.

Definition find_flight_by_airline (m : AgentMemory) (airline_name : string)
  : option FlightRecord :=
  let normalized_query := PyStr.remove_spaces (PyStr.lower airline_name) in
  find_by_airline_in normalized_query (flight_cache m).

(** [min(xs, key=key)] after its first element: the running minimum is
    replaced only by a strictly smaller key. *)
Fixpoint min_from {A} (key : A -> Z) (best : A) (xs : list A) : A :=
  match xs with
  | [] => best
  | x :: rest => if key x <? key best then min_from key x rest else min_from key best rest
  end.

(** [None] on an empty cache, otherwise
    [min(self.flight_cache, key=lambda x: x.price)]. *)
Definition find_cheapest_flight (m : AgentMemory) : option FlightRecord :=
  match flight_cache m with
  | [] => None
  | x :: rest => Some (min_from price x rest)
  end.

Fixpoint get_by_id_in (fid : string) (cache : list FlightRecord) : option FlightRecord :=
  match cache with
  | [] => None
  | flight :: rest =>
      if bool_decide (flight_id flight = fid) then Some flight
      else get_by_id_in fid rest
  end.

Definition get_flight_by_id (m : AgentMemory) (fid : string) : option FlightRecord :=
  get_by_id_in fid (flight_cache m).

(** ** Calendar dates ([datetime.date]) *)

Module PyDate.

(** A date is its proleptic Gregorian ordinal, 0001-01-01 being day 1. *)
Record date := { toordinal : Z }.

Definition MAXORDINAL : Z := 3652059.

Definition is_leap (y : Z) : bool :=
  (y mod 4 =? 0) && (negb (y mod 100 =? 0) || (y mod 400 =? 0)).

Definition days_before_year (y : Z) : Z :=
  let y' := y - 1 in y' * 365 + y' / 4 - y' / 100 + y' / 400.

Definition DAYS_IN_MONTH : list Z := [31; 28; 31; 30; 31; 30; 31; 31; 30; 31; 30; 31].

Definition days_in_month (leap : bool) (m : Z) : Z :=
  if (m =? 2) && leap then 29 else nth (Z.to_nat (m - 1)) DAYS_IN_MONTH 0.

Definition days_before_month (leap : bool) (m : Z) : Z :=
  nth (Z.to_nat (m - 1)) [0; 31; 59; 90; 120; 151; 181; 212; 243; 273; 304; 334] 0
  + (if (2 <? m) && leap then 1 else 0).

Definition ymd2ord (y m d : Z) : Z :=
  days_before_year y + days_before_month (is_leap y) m + d.

(** [datetime.date(y, m, d)] for a day that exists. *)
Definition of_ymd (y m d : Z) : date := {| toordinal := ymd2ord y m d |}.

Definition ord2ymd (n0 : Z) : Z * Z * Z :=
  let n := n0 - 1 in
  let n400 := n / 146097 in
  let n := n mod 146097 in
  let n100 := n / 36524 in
  let n := n mod 36524 in
  let n4 := n / 1461 in
  let n := n mod 1461 in
  let n1 := n / 365 in
  let n := n mod 365 in
  let year := n400 * 400 + 1 + n100 * 100 + n4 * 4 + n1 in
  if (n1 =? 4) || (n100 =? 4) then (year - 1, 12, 31)
  else
    let leapyear := (n1 =? 3) && (negb (n4 =? 24) || (n100 =? 3)) in
    let month := Z.shiftr (n + 50) 5 in
    let preceding := days_before_month leapyear month in
    if n <? preceding
    then (year, month - 1, n - (preceding - days_in_month leapyear (month - 1)) + 1)
    else (year, month, n - preceding + 1).

(** [d + datetime.timedelta(days=n)]. *)
Definition add_days (d : date) (n : Z) : result date :=
  let o := toordinal d + n in
  if (0 <? o) && (o <=? MAXORDINAL) then Ok {| toordinal := o |}
  else Raise OverflowError.

Fixpoint zeros (n : nat) : string :=
  match n with
  | O => EmptyString
  | S n' => String "0" (zeros n')
  end.

Definition zero_pad (width : nat) (z : Z) : string :=
  let s := pretty z in
  zeros (width - String.length s) +:+ s.

(** [d.strftime("%Y-%m-%d")], the year written with four digits as the
    library documents it (some C libraries leave out the leading zeros of a
    year below 1000). *)
Definition strftime_Ymd (d : date) : string :=
  let '(y, m, dd) := ord2ymd (toordinal d) in
  zero_pad 4 y +:+ "-" +:+ zero_pad 2 m +:+ "-" +:+ zero_pad 2 dd.

End PyDate.

(** ** What lies outside the program *)

(** The [try] block of _extract_parameters (lines 159-162) calls the model,
    reads the text of its response, removes the code fences and hands the
    rest to [json.loads].  Any of these may raise; when none does,
    [json.loads] has produced a value. *)
Inductive try_outcome :=
  | TryRaised
  | TryLoaded (v : pyval).

Record World := {
  (** [datetime.date.today()] *)
  today : PyDate.date;
  (** the [try] block of _extract_parameters on the prompt built from a user input *)
  interpret : string -> try_outcome;
  (** the text of the model's response in _generate_response on the prompt
      built from a context; [None] when the call raises *)
  generate : string -> option string;
  (** [str(uuid.uuid4())] *)
  uuid4 : string;
  (** [repr] of a list or a dict *)
  repr_container : pyval -> string;
}.

(** [str(v)], as an f-string formats a value. *)
Definition py_str (w : World) (v : pyval) : string :=
  match v with
  | PNone => "None"
  | PBool true => "True"
  | PBool false => "False"
  | PInt z => pretty z
  | PStr s => s
  | _ => repr_container w v
  end.

(** Calls that leave the orchestrator, by call site: the model called by
    _extract_parameters, the two mock tools, and the model called by
    _generate_response. *)
Inductive event :=
  | Interpretation (user_input : string)
  | SearchInventory (origin dest : pyval) (date_str : string)
  | CommitReservation (flight_id : string) (passenger_name : pyval)
  | Generation (context : string).

(** ** Mock tools (section 3 of the source) *)

(** The orchestrator: its memory, and a journal of the calls it has made,
    oldest first. *)
Record TravelAgentSystem := {
  memory : AgentMemory;
  journal : list event;
}.

(** [TravelAgentSystem.__init__]. *)
Definition TravelAgentSystem_init : TravelAgentSystem :=
  {| memory := AgentMemory_init; journal := [] |}.

Definition emit (e : event) : M TravelAgentSystem unit :=
  modify (fun s => {| memory := memory s; journal := journal s ++ [e] |}).

(** Run a method of [self.memory]. *)
Definition on_memory {A} (c : M AgentMemory A) : M TravelAgentSystem A :=
  fun s =>
    let '(r, m) := c (memory s) in
    (r, {| memory := m; journal := journal s |}).

Definition offer (fid al dep p : string) : raw_offer :=
  {[ "flight_id" := fid; "airline" := al; "departure_time" := dep; "price" := p ]}.

Definition _search_flight_inventory (origin destination : pyval) (date_str : string)
  : M TravelAgentSystem (gmap string (list raw_offer)) :=
  emit (SearchInventory origin destination date_str) ;;
  ret {[ "flights" :=
           [ offer "BA-2847" "British Airways" "09:00 AM" "$420";
             offer "AF-1923" "Air France" "02:00 PM" "$300";
             offer "LH-5614" "Lufthansa" "08:00 PM" "$600" ] ]}.

Definition _commit_reservation (w : World) (fid : string) (passenger_name : pyval)
  : M TravelAgentSystem (gmap string pyval) :=
  emit (CommitReservation fid passenger_name) ;;
  let pnr := "PNR" +:+ PyStr.upper (PyStr.take 6 (uuid4 w)) in
  ret {[ "status" := PStr "CONFIRMED"; "pnr" := PStr pnr;
         "flight_id" := PStr fid; "passenger" := passenger_name ]}.

(** ** Orchestrator (section 4 of the source) *)

Definition GENERAL_payload : pyval := PDict {[ "intent" := PStr "GENERAL" ]}.

Definition _extract_parameters (w : World) (user_input : string)
  : M TravelAgentSystem pyval :=
  emit (Interpretation user_input) ;;
  match interpret w user_input with
  | TryLoaded v => ret v
  | TryRaised => ret GENERAL_payload
  end.

Definition _resolve_date {S} (w : World) (date_ref : pyval) : M S string :=
  let today := today w in
  if negb (truthy date_ref) then ret (PyDate.strftime_Ymd today)
  else
    let* date_ref := lift (py_lower date_ref) in
    let* target_date :=
      if PyStr.contains "tomorrow" date_ref then lift (PyDate.add_days today 1)
      else if PyStr.contains "today" date_ref then ret today
      else ret today in
    ret (PyDate.strftime_Ymd target_date).

Definition _generate_response (w : World) (context : string)
  : M TravelAgentSystem string :=
  emit (Generation context) ;;
  match generate w context with
  | Some text => ret (PyStr.strip text)
  | None => raise ServiceError
  end.

Definition flight_string (f : FlightRecord) : string :=
  "- " +:+ airline f +:+ " (" +:+ flight_id f +:+ "): " +:+ raw_price f
  +:+ " at " +:+ departure f.

Definition _handle_search (w : World) (data : pyval) : M TravelAgentSystem string :=
  let* origin := lift (py_get data "origin" (PStr "Unknown")) in
  let* dest := lift (py_get data "destination" (PStr "Unknown")) in
  let* date_ref := lift (py_get data "date_reference" PNone) in
  let* travel_date := _resolve_date w date_ref in
  let* search_results := _search_flight_inventory origin dest travel_date in
  let* flights := getitem search_results "flights" in
  on_memory (update_cache flights origin dest) ;;
  let* self := get in
  let flight_strings := flight_string <$> flight_cache (memory self) in
  let context_str :=
    "Search completed for " +:+ py_str w origin +:+ " to " +:+ py_str w dest
    +:+ " on " +:+ travel_date +:+ ". Found " +:+ pretty (length flight_strings)
    +:+ " options:" +:+ PyStr.newline +:+ PyStr.join PyStr.newline flight_strings in
  _generate_response w context_str.

Definition clarification : string :=
  "I could not identify the flight you wish to book. Please specify the airline name or flight ID from the search results.".

Definition capability : string :=
  "I am a Travel Agent system. I can help you search for and book flights. How may I assist?".

(** [bool(flight_record)]: a FlightRecord is truthy, [None] is not. *)
Definition found (flight_record : option FlightRecord) : bool :=
  match flight_record with
  | Some _ => true
  | None => false
  end.

Definition _handle_booking (w : World) (data : pyval) : M TravelAgentSystem string :=
  let* slot := lift (py_get data "booking_target" (PStr "")) in
  let* target := lift (py_lower slot) in
  let* passenger := lift (py_get data "passenger" (PStr "Guest")) in
  let* self := get in
  let flight_record :=
    if PyStr.contains "cheapest" target then find_cheapest_flight (memory self)
    else
      let flight_record := find_flight_by_airline (memory self) target in
      if negb (found flight_record)
      then get_flight_by_id (memory self) (PyStr.upper target)
      else flight_record in
  match flight_record with
  | None => ret clarification
  | Some flight_record =>
      let* booking_result := _commit_reservation w (flight_id flight_record) passenger in
      let* r_flight_id := getitem booking_result "flight_id" in
      let* r_passenger := getitem booking_result "passenger" in
      let* r_pnr := getitem booking_result "pnr" in
      let* r_status := getitem booking_result "status" in
      let context_str :=
        "Booking successful." +:+ PyStr.newline
        +:+ "Airline: " +:+ airline flight_record +:+ PyStr.newline
        +:+ "Flight ID: " +:+ py_str w r_flight_id +:+ PyStr.newline
        +:+ "Passenger: " +:+ py_str w r_passenger +:+ PyStr.newline
        +:+ "PNR: " +:+ py_str w r_pnr +:+ PyStr.newline
        +:+ "Status: " +:+ py_str w r_status in
      _generate_response w context_str
  end.

Definition handle_request (w : World) (user_input : string)
  : M TravelAgentSystem string :=
  let* nlu_data := _extract_parameters w user_input in
  let* intent := lift (py_get nlu_data "intent" (PStr "GENERAL")) in
  if eq_str intent "SEARCH" then _handle_search w nlu_data
  else if eq_str intent "BOOK" then _handle_booking w nlu_data
  else ret capability.

(** A session: the turns of the entry point, one after the other, an
    exception ending its turn only (lines 291-295). *)
Fixpoint run_turns (ws : list (World * string)) (s : TravelAgentSystem)
  : list (result string) * TravelAgentSystem :=
  match ws with
  | [] => ([], s)
  | (w, msg) :: rest =>
      let '(r, s') := handle_request w msg s in
      let '(rs, s'') := run_turns rest s' in
      (r :: rs, s'')
  end.

(** ** A sample world *)

Definition sample_world (o : try_outcome) : World :=
  {| today := PyDate.of_ymd 2024 1 10;
     interpret := fun _ => o;
     generate := fun context => Some context;
     uuid4 := "3f2b8c1e-7a64-4d1b-9c0e-5b6a7d8e9f01";
     repr_container := fun _ => "{...}" |}.

(** ** Vocabulary of the statements *)

(** The record update_cache builds from one offer, when the offer has the
    four keys the loop body reads. *)
Definition build_record (origin dest : pyval) (f : raw_offer) : option FlightRecord :=
  p ← f !! "price";
  fid ← f !! "flight_id";
  al ← f !! "airline";
  dep ← f !! "departure_time";
  Some {| flight_id := fid; airline := al; price := parse_price p; raw_price := p;
          departure := dep; origin := origin; destination := dest |}.

(** The records of the offers up to the first one that lacks a key. *)
Fixpoint built_prefix (origin dest : pyval) (raw_flights : list raw_offer)
  : list FlightRecord :=
  match raw_flights with
  | [] => []
  | f :: rest =>
      match build_record origin dest f with
      | Some r => r :: built_prefix origin dest rest
      | None => []
      end
  end.

Definition complete (f : raw_offer) : Prop :=
  is_Some (f !! "price") ∧ is_Some (f !! "flight_id")
  ∧ is_Some (f !! "airline") ∧ is_Some (f !! "departure_time").

(** One call of update_cache: its three arguments. *)
Definition update_call : Type := list raw_offer * pyval * pyval.

(** The memory after a sequence of update_cache calls; a call that raises
    leaves the memory as it was when it raised. *)
Fixpoint run_updates (calls : list update_call) (m : AgentMemory) : AgentMemory :=
  match calls with
  | [] => m
  | (raw_flights, origin, dest) :: rest =>
      run_updates rest (update_cache raw_flights origin dest m).2
  end.

(** [q] occurs in [s]: stated with concatenation rather than computed. *)
Definition substring_of (q s : string) : Prop :=
  ∃ l r, s = l +:+ q +:+ r.

(** The digit characters of a string, in order, as numbers. *)
Fixpoint digits_of (s : string) : list Z :=
  match s with
  | EmptyString => []
  | String c s' =>
      if PyStr.is_digit c then digit_value c :: digits_of s' else digits_of s'
  end.

(** The number a sequence of decimal digits denotes, most significant
    digit first. *)
Fixpoint numeral (ds : list Z) : Z :=
  match ds with
  | [] => 0
  | d :: rest => d * 10 ^ Z.of_nat (length rest) + numeral rest
  end.

(** How many digit characters a string has. *)
Definition digit_count (s : string) : Z := Z.of_nat (length (digits_of s)).

Fixpoint has_digit (s : string) : bool :=
  match s with
  | EmptyString => false
  | String c s' => PyStr.is_digit c || has_digit s'
  end.

(** From the words of the spec, section 4.3, BOOK: the record a target
    resolves to. *)
Definition booked_record (m : AgentMemory) (target : string) : option FlightRecord :=
  if PyStr.contains "cheapest" target then find_cheapest_flight m
  else
    match find_flight_by_airline m target with
    | Some r => Some r
    | None => get_flight_by_id m (PyStr.upper target)
    end.

(** The target of a BOOK payload: the booking_target slot lower-cased, the
    empty string standing in for an absent slot. *)
Definition booking_target_of (d : gmap string pyval) : result string :=
  match d !! "booking_target" with
  | None => Ok EmptyString
  | Some v => py_lower v
  end.

Definition passenger_of (d : gmap string pyval) : pyval :=
  default (PStr "Guest") (d !! "passenger").

(** The context _handle_booking hands to the generation service. *)
Definition confirmation_context (w : World) (r : FlightRecord) (passenger : pyval)
  : string :=
  "Booking successful." +:+ PyStr.newline
  +:+ "Airline: " +:+ airline r +:+ PyStr.newline
  +:+ "Flight ID: " +:+ flight_id r +:+ PyStr.newline
  +:+ "Passenger: " +:+ py_str w passenger +:+ PyStr.newline
  +:+ "PNR: " +:+ ("PNR" +:+ PyStr.upper (PyStr.take 6 (uuid4 w))) +:+ PyStr.newline
  +:+ "Status: " +:+ "CONFIRMED".

(** The orchestrator after further calls. *)
Definition after (s : TravelAgentSystem) (es : list event) : TravelAgentSystem :=
  {| memory := memory s; journal := journal s ++ es |}.

Definition is_commit (e : event) : bool :=
  match e with CommitReservation _ _ => true | _ => false end.

Definition is_generation (e : event) : bool :=
  match e with Generation _ => true | _ => false end.

Definition valid_date (d : PyDate.date) : Prop :=
  1 <= PyDate.toordinal d <= PyDate.MAXORDINAL.

(** ** Sample data *)

Definition mk_record (fid al : string) (p : Z) (rp dep : string) : FlightRecord :=
  {| flight_id := fid; airline := al; price := p; raw_price := rp; departure := dep;
     origin := PStr "London"; destination := PStr "Paris" |}.

Definition british_airways : FlightRecord :=
  mk_record "BA-2847" "British Airways" 420 "$420" "09:00 AM".

Definition air_france : FlightRecord :=
  mk_record "AF-1923" "Air France" 300 "$300" "02:00 PM".

Definition lufthansa : FlightRecord :=
  mk_record "LH-5614" "Lufthansa" 600 "$600" "08:00 PM".

(** The memory the search of the scenario leaves behind. *)
Definition searched_memory : AgentMemory :=
  (update_cache
     [ offer "BA-2847" "British Airways" "09:00 AM" "$420";
       offer "AF-1923" "Air France" "02:00 PM" "$300";
       offer "LH-5614" "Lufthansa" "08:00 PM" "$600" ]
     (PStr "London") (PStr "Paris") AgentMemory_init).2.

Definition searched_system : TravelAgentSystem :=
  {| memory := searched_memory; journal := [] |}.

(** Two records at the lowest price, Air France first. *)
Definition tied_memory : AgentMemory :=
  set_flight_cache
    [ british_airways; air_france;
      mk_record "LH-5614" "Lufthansa" 300 "$300" "08:00 PM" ] AgentMemory_init.

Definition earlier_calls : list update_call :=
  [([offer "ZZ-0001" "Zed Air" "01:00 AM" "$1"], PStr "Oslo", PStr "Rome")].

Definition latest_call : update_call :=
  ([ offer "BA-2847" "British Airways" "09:00 AM" "$420";
     offer "AF-1923" "Air France" "02:00 PM" "$300" ], PStr "London", PStr "Paris").

Fixpoint repeat_char (c : ascii) (n : nat) : string :=
  match n with
  | O => EmptyString
  | S n' => String c (repeat_char c n')
  end.

(** A price of 4301 digits, one more than [int] converts. *)
Definition long_price : string := repeat_char "1" 4301.

Definition priced_offer : raw_offer :=
  offer "BA-2847" "British Airways" "09:00 AM" "$1,420.50".

Definition unpriced_offer : raw_offer :=
  offer "AF-1923" "Air France" "02:00 PM" "call us".

Definition book_by_identifier : gmap string pyval :=
  {[ "intent" := PStr "BOOK"; "booking_target" := PStr "af-1923" ]}.

Definition book_delta : gmap string pyval :=
  {[ "intent" := PStr "BOOK"; "booking_target" := PStr "Delta" ]}.

Definition book_without_target : gmap string pyval :=
  {[ "intent" := PStr "BOOK"; "passenger" := PStr "Robin" ]}.

Definition book_null_target : gmap string pyval :=
  {[ "intent" := PStr "BOOK"; "booking_target" := PNone ]}.

Definition payload_without_intent : gmap string pyval :=
  {[ "origin" := PStr "Oslo" ]}.

Definition search_tomorrow : gmap string pyval :=
  {[ "intent" := PStr "SEARCH"; "origin" := PStr "London";
     "destination" := PStr "Paris"; "date_reference" := PStr "tomorrow" ]}.

Definition book_lufthansa : gmap string pyval :=
  {[ "intent" := PStr "BOOK"; "booking_target" := PStr "Lufthansa";
     "passenger" := PStr "Robin" ]}.

Definition book_cheapest : gmap string pyval :=
  {[ "intent" := PStr "BOOK"; "booking_target" := PStr "cheapest";
     "passenger" := PStr "Robin" ]}.

(** The three turns of the entry point (section 5 of the source), each with
    the payload the interpretation is expected to give. *)
Definition scenario : list (World * string) :=
  [ (sample_world (TryLoaded (PDict search_tomorrow)),
     "Find me flights from London to Paris for tomorrow.");
    (sample_world (TryLoaded (PDict book_lufthansa)),
     "Actually, book the Lufthansa one for Robin.");
    (sample_world (TryLoaded (PDict book_cheapest)),
     "Wait, cancel that thought. Book the cheapest option instead for Robin.") ].

(** The sample world on the last day of the calendar. *)
Definition last_day_world : World :=
  {| today := PyDate.of_ymd 9999 12 31;
     interpret := fun _ => TryRaised;
     generate := fun context => Some context;
     uuid4 := "3f2b8c1e-7a64-4d1b-9c0e-5b6a7d8e9f01";
     repr_container := fun _ => "{...}" |}.

(** ** Vocabulary of the further statements *)

Fixpoint all_chars (p : ascii → bool) (s : string) : bool :=
  match s with
  | EmptyString => true
  | String c s' => p c && all_chars p s'
  end.

(** No character of [s] is a lower-case letter. *)
Definition no_lowercase (s : string) : Prop :=
  all_chars (λ c, negb (PyStr.is_lower c)) s = true.

(** [s] is made of U+0020 only. *)
Definition only_spaces (s : string) : Prop :=
  all_chars (λ c, PyStr.code c =? 32) s = true.

Definition starts_with_space (s : string) : bool :=
  match s with
  | EmptyString => false
  | String c _ => PyStr.is_space c
  end.

Definition ends_with_space (s : string) : bool :=
  starts_with_space (String.rev s).

(** The records update_cache builds from the offers of the mock inventory. *)
Definition inventory_records (origin dest : pyval) : list FlightRecord :=
  [ {| flight_id := "BA-2847"; airline := "British Airways"; price := 420;
       raw_price := "$420"; departure := "09:00 AM";
       origin := origin; destination := dest |};
    {| flight_id := "AF-1923"; airline := "Air France"; price := 300;
       raw_price := "$300"; departure := "02:00 PM";
       origin := origin; destination := dest |};
    {| flight_id := "LH-5614"; airline := "Lufthansa"; price := 600;
       raw_price := "$600"; departure := "08:00 PM";
       origin := origin; destination := dest |} ].

(** The context _handle_search hands to the generation service. *)
Definition search_context (w : World) (origin dest : pyval) (travel_date : string)
    (cache : list FlightRecord) : string :=
  "Search completed for " +:+ py_str w origin +:+ " to " +:+ py_str w dest
  +:+ " on " +:+ travel_date +:+ ". Found " +:+ pretty (length (flight_string <$> cache))
  +:+ " options:" +:+ PyStr.newline
  +:+ PyStr.join PyStr.newline (flight_string <$> cache).

(** What _generate_response returns or raises on a context. *)
Definition generation_outcome (w : World) (context : string) : result string :=
  match generate w context with
  | Some text => Ok (PyStr.strip text)
  | None => Raise ServiceError
  end.

Definition is_interpretation (e : event) : bool :=
  match e with Interpretation _ => true | _ => false end.

(** The three shapes the calls of one turn can take after the
    interpretation. *)
Inductive turn_shape : list event → Prop :=
  | turn_silent : turn_shape []
  | turn_search o d ds ctx : turn_shape [SearchInventory o d ds; Generation ctx]
  | turn_booking fid p ctx : turn_shape [CommitReservation fid p; Generation ctx].

Definition book_spaces : gmap string pyval :=
  {[ "intent" := PStr "BOOK"; "booking_target" := PStr "   " ]}.

Definition search_numeric_date : gmap string pyval :=
  {[ "intent" := PStr "SEARCH"; "date_reference" := PInt 5 ]}.

Definition book_numeric_target : gmap string pyval :=
  {[ "intent" := PStr "BOOK"; "booking_target" := PInt 2847 ]}.

(** The sample world with a generation service that is down. *)
Definition silent_world (o : try_outcome) : World :=
  {| today := PyDate.of_ymd 2024 1 10;
     interpret := fun _ => o;
     generate := fun _ => None;
     uuid4 := "3f2b8c1e-7a64-4d1b-9c0e-5b6a7d8e9f01";
     repr_container := fun _ => "{...}" |}.

(** An offer without a departure time. *)
Definition offer_without_departure : raw_offer :=
  {[ "flight_id" := "QQ-0001"; "airline" := "Quick Air"; "price" := "$10" ]}.

(** * Facts *)

(** ** Strings *)

Section StringFacts.

Lemma starts_with_spec p s :
  PyStr.starts_with p s = true <-> exists r, s = p +:+ r.
Proof.
  revert s; induction p as [|a p IH]; intros s; simpl.
  - split; [intros _; exists s; reflexivity | reflexivity].
  - destruct s as [|b s]; simpl.
    + split; [discriminate | intros [r Hr]; discriminate].
    + destruct (decide (a = b)) as [->|Hab].
      * rewrite IH. split; intros [r Hr]; exists r; [by rewrite Hr | by injection Hr].
      * split; [discriminate | intros [r Hr]; injection Hr; intros; congruence].
Qed.

Lemma contains_spec q s : PyStr.contains q s = true <-> substring_of q s.
Proof.
  unfold substring_of. induction s as [|b s IH].
  - simpl. rewrite orb_false_r, starts_with_spec. split.
    + intros [r Hr]. exists EmptyString, r. exact Hr.
    + intros [l [r Hr]]. destruct l; [by exists r | discriminate].
  - cbn [PyStr.contains]. rewrite orb_true_iff, IH, starts_with_spec. split.
    + intros [[r Hr] | [l [r Hr]]].
      * exists EmptyString, r. exact Hr.
      * exists (String b l), r. simpl. by rewrite Hr.
    + intros [l [r Hr]]. destruct l as [|c l]; simpl in Hr.
      * left. by exists r.
      * right. injection Hr as _ Hs. by exists l, r.
Qed.

Lemma contains_false q s : PyStr.contains q s = false <-> ¬ substring_of q s.
Proof. rewrite <- contains_spec. destruct (PyStr.contains q s); split; congruence. Qed.

Lemma contains_empty s : PyStr.contains EmptyString s = true.
Proof. destruct s; reflexivity. Qed.

End StringFacts.

(** ** The method monad *)

Lemma for_each_app {S A} (xs ys : list A) (body : A -> M S unit) (s : S) :
  for_each (xs ++ ys) body s =
  match for_each xs body s with
  | (Ok _, s') => for_each ys body s'
  | (Raise e, s') => (Raise e, s')
  end.
Proof.
  revert s; induction xs as [|x xs IH]; intros s; simpl; [reflexivity|].
  unfold bind. destruct (body x s) as [[[]|e] s']; [apply IH | reflexivity].
Qed.

(** ** update_cache *)

Section UpdateCache.
Variables origin dest : pyval.

Lemma body_built f m r :
  build_record origin dest f = Some r ->
  update_cache_body origin dest f m = (Ok tt, append_record r m).
Proof.
  unfold build_record, update_cache_body, getitem, bind, ret, modify.
  destruct (f !! "price") as [p|]; [|discriminate].
  destruct (f !! "flight_id") as [fid|]; [|discriminate].
  destruct (f !! "airline") as [al|]; [|discriminate].
  destruct (f !! "departure_time") as [dep|]; [|discriminate].
  simpl. intros [= <-]. reflexivity.
Qed.

Lemma body_raises f m :
  build_record origin dest f = None ->
  ∃ k, update_cache_body origin dest f m = (Raise (KeyError k), m).
Proof.
  unfold build_record, update_cache_body, getitem, bind, ret, raise.
  destruct (f !! "price") as [p|]; [|by eexists].
  destruct (f !! "flight_id") as [fid|]; [|by eexists].
  destruct (f !! "airline") as [al|]; [|by eexists].
  destruct (f !! "departure_time") as [dep|]; [discriminate|by eexists].
Qed.

Lemma build_record_complete f : complete f <-> is_Some (build_record origin dest f).
Proof.
  unfold complete, build_record.
  destruct (f !! "price"), (f !! "flight_id"), (f !! "airline"),
    (f !! "departure_time"); simpl;
    split; try (intros (?&?&?&?) || intros ?);
    repeat match goal with H : is_Some None |- _ => destruct H; discriminate end;
    eauto 6.
Qed.

Lemma for_each_cache raw m :
  flight_cache (for_each raw (update_cache_body origin dest) m).2
  = flight_cache m ++ built_prefix origin dest raw
  ∧ last_search_context (for_each raw (update_cache_body origin dest) m).2
    = last_search_context m.
Proof.
  revert m; induction raw as [|f raw IH]; intros m; simpl.
  - by rewrite app_nil_r.
  - unfold bind. destruct (build_record origin dest f) as [r|] eqn:Hb.
    + rewrite (body_built _ _ _ Hb). destruct (IH (append_record r m)) as [-> ->].
      simpl. by rewrite <- app_assoc.
    + destruct (body_raises f m Hb) as [k ->]. simpl. by rewrite app_nil_r.
Qed.

Lemma update_cache_cache raw m :
  flight_cache (update_cache raw origin dest m).2 = built_prefix origin dest raw.
Proof.
  unfold update_cache, bind, modify.
  by destruct (for_each_cache raw (set_flight_cache [] m)) as [-> _].
Qed.

Lemma built_prefix_complete raw :
  Forall complete raw ->
  Some <$> built_prefix origin dest raw = build_record origin dest <$> raw.
Proof.
  induction 1 as [|f raw Hf _ IH]; [reflexivity|].
  apply build_record_complete in Hf as [r Hr]. cbn [built_prefix].
  rewrite Hr, !fmap_cons, Hr. by f_equal.
Qed.

Lemma for_each_complete raw m :
  Forall complete raw ->
  for_each raw (update_cache_body origin dest) m
  = (Ok tt, set_flight_cache (flight_cache m ++ built_prefix origin dest raw) m).
Proof.
  intros H; revert m; induction H as [|f raw Hf _ IH]; intros m; simpl.
  - rewrite app_nil_r. by destruct m.
  - apply build_record_complete in Hf as [r Hr]. unfold bind.
    rewrite (body_built _ _ _ Hr), Hr, IH. simpl.
    unfold set_flight_cache; simpl. by rewrite <- app_assoc.
Qed.

Lemma update_cache_complete raw m :
  Forall complete raw ->
  update_cache raw origin dest m
  = (Ok tt, set_flight_cache (built_prefix origin dest raw) m).
Proof.
  intros H. unfold update_cache, bind, modify. by rewrite (for_each_complete _ _ H).
Qed.

Lemma built_prefix_elem r raw :
  r ∈ built_prefix origin dest raw ->
  ∃ f, f ∈ raw ∧ build_record origin dest f = Some r.
Proof.
  induction raw as [|f raw IH]; simpl; [by intros ?%elem_of_nil|].
  destruct (build_record origin dest f) as [r'|] eqn:Hb; [|by intros ?%elem_of_nil].
  intros [->|Hin]%elem_of_cons.
  - exists f. split; [left|done].
  - destruct (IH Hin) as (g & Hg & Hr). exists g. split; [by right|done].
Qed.

End UpdateCache.

(** ** The three queries *)

Section Queries.
Implicit Types (cache : list FlightRecord) (r : FlightRecord).

Lemma find_by_airline_in_spec q cache :
  match find_by_airline_in q cache with
  | Some r =>
      ∃ pre post, cache = pre ++ r :: post
        ∧ PyStr.contains q (normalize (airline r)) = true
        ∧ Forall (λ x, PyStr.contains q (normalize (airline x)) = false) pre
  | None => Forall (λ x, PyStr.contains q (normalize (airline x)) = false) cache
  end.
Proof.
  induction cache as [|x cache IH]; simpl; [constructor|].
  destruct (PyStr.contains q (normalize (airline x))) eqn:Hx.
  - exists [], cache. by repeat split.
  - destruct (find_by_airline_in q cache) as [r|].
    + destruct IH as (pre & post & -> & Hr & Hpre).
      exists (x :: pre), post. repeat split; [done|by constructor].
    + by constructor.
Qed.

Lemma get_by_id_in_spec fid cache :
  match get_by_id_in fid cache with
  | Some r =>
      ∃ pre post, cache = pre ++ r :: post ∧ flight_id r = fid
        ∧ Forall (λ x, flight_id x ≠ fid) pre
  | None => Forall (λ x, flight_id x ≠ fid) cache
  end.
Proof.
  induction cache as [|x cache IH]; simpl; [constructor|].
  case_bool_decide as Hx.
  - exists [], cache. by repeat split.
  - destruct (get_by_id_in fid cache) as [r|].
    + destruct IH as (pre & post & -> & Hr & Hpre).
      exists (x :: pre), post. repeat split; [done|by constructor].
    + by constructor.
Qed.

Lemma min_from_spec {A} (key : A → Z) (best : A) (xs : list A) :
  ∃ pre post, best :: xs = pre ++ min_from key best xs :: post
    ∧ Forall (λ x, key (min_from key best xs) <= key x) (best :: xs)
    ∧ Forall (λ x, key (min_from key best xs) < key x) pre.
Proof.
  revert best; induction xs as [|x xs IH]; intros best; simpl.
  - exists [], []. repeat split; [|constructor]. repeat constructor. simpl; lia.
  - destruct (key x <? key best) eqn:Hlt.
    + apply Z.ltb_lt in Hlt.
      destruct (IH x) as (pre & post & Heq & Hall & Hpre).
      pose proof (Forall_inv Hall) as Hx; simpl in Hx.
      exists (best :: pre), post. split; [by rewrite Heq at 1|].
      split; [|constructor; [simpl; lia|done]].
      constructor; [simpl; lia|done].
    + apply Z.ltb_ge in Hlt.
      destruct (IH best) as (pre & post & Heq & Hall & Hpre).
      pose proof (Forall_inv Hall) as Hb; simpl in Hb.
      apply Forall_inv_tail in Hall.
      destruct pre as [|b pre]; simpl in Heq.
      * exists [], (x :: xs). injection Heq as Hbest Hxs.
        split; [simpl; by rewrite <- Hbest|]. split; [|constructor].
        rewrite <- Hbest in Hall |- *.
        constructor; [simpl; lia|]. constructor; [simpl; lia|done].
      * injection Heq as <- Hxs. exists (best :: x :: pre), post.
        pose proof (Forall_inv Hpre) as Hstrict; simpl in Hstrict.
        apply Forall_inv_tail in Hpre.
        split; [simpl; by rewrite <- Hxs|]. split.
        -- constructor; [simpl; lia|]. constructor; [simpl; lia|done].
        -- constructor; [done|]. constructor; [simpl; lia|done].
Qed.

Lemma find_flight_by_airline_elem m q r :
  find_flight_by_airline m q = Some r → r ∈ flight_cache m.
Proof.
  unfold find_flight_by_airline. intros H.
  pose proof (find_by_airline_in_spec (PyStr.remove_spaces (PyStr.lower q)) (flight_cache m)) as S.
  rewrite H in S. destruct S as (pre & post & -> & _). set_solver.
Qed.

Lemma get_flight_by_id_elem m fid r :
  get_flight_by_id m fid = Some r → r ∈ flight_cache m.
Proof.
  unfold get_flight_by_id. intros H.
  pose proof (get_by_id_in_spec fid (flight_cache m)) as S.
  rewrite H in S. destruct S as (pre & post & -> & _). set_solver.
Qed.

Lemma find_cheapest_flight_elem m r :
  find_cheapest_flight m = Some r → r ∈ flight_cache m.
Proof.
  unfold find_cheapest_flight. destruct (flight_cache m) as [|x xs]; [discriminate|].
  intros [= <-]. destruct (min_from_spec price x xs) as (pre & post & -> & _). set_solver.
Qed.

End Queries.

Lemma run_updates_last earlier raw_flights origin dest m0 :
  flight_cache (run_updates (earlier ++ [(raw_flights, origin, dest)]) m0)
  = built_prefix origin dest raw_flights.
Proof.
  revert m0. induction earlier as [|[[raw' o'] d'] earlier IH]; intros m0; simpl.
  - apply update_cache_cache.
  - apply IH.
Qed.

(** * The claims *)

(** C1. After any sequence of update_cache calls, the cache is what the most
    recent call built from its own offers, whatever the earlier calls and the
    memory before them were: it is the cache the same call leaves on a fresh
    memory.  Hence every record returned by find_cheapest_flight,
    find_flight_by_airline or get_flight_by_id is a record built from an
    offer of the most recent call. *)
Theorem C1_cache_replacement_total
    (earlier : list update_call) (raw_flights : list raw_offer) (origin dest : pyval)
    (m0 : AgentMemory) (r : FlightRecord) :
  ∀ m, m = run_updates (earlier ++ [(raw_flights, origin, dest)]) m0 →
  (find_cheapest_flight m = Some r
   ∨ (∃ q, find_flight_by_airline m q = Some r)
   ∨ (∃ fid, get_flight_by_id m fid = Some r)) →
  flight_cache m = flight_cache (update_cache raw_flights origin dest AgentMemory_init).2
  ∧ r ∈ flight_cache m
  ∧ ∃ f, f ∈ raw_flights ∧ build_record origin dest f = Some r.
Proof.
  intros m -> Hret. set (m := run_updates _ m0) in *.
  assert (Hm : flight_cache m = built_prefix origin dest raw_flights)
    by apply run_updates_last.
  assert (Hin : r ∈ flight_cache m).
  { destruct Hret as [H | [[q H] | [fid H]]];
      eauto using find_cheapest_flight_elem, find_flight_by_airline_elem,
        get_flight_by_id_elem. }
  split; [by rewrite update_cache_cache|]. split; [done|].
  rewrite Hm in Hin. by apply built_prefix_elem.
Qed.

Lemma C1_cache_replacement_total_witness :
  find_cheapest_flight (run_updates (earlier_calls ++ [latest_call]) AgentMemory_init)
    = Some air_france
  ∧ air_france ∈ flight_cache (run_updates (earlier_calls ++ [latest_call]) AgentMemory_init)
  ∧ ∃ f, f ∈ latest_call.1.1 ∧ build_record (PStr "London") (PStr "Paris") f = Some air_france.
Proof.
  assert (H : find_cheapest_flight
                (run_updates (earlier_calls ++ [latest_call]) AgentMemory_init)
              = Some air_france) by (vm_compute; reflexivity).
  split; [exact H|].
  exact (proj2 (C1_cache_replacement_total earlier_calls latest_call.1.1 (PStr "London")
                  (PStr "Paris") AgentMemory_init air_france _ eq_refl (or_introl H))).
Defined.

(** C3. find_flight_by_airline returns the first record, in cache order,
    whose carrier name, lower-cased and with its spaces removed, has the
    query, lower-cased and with its spaces removed, as a substring; it
    returns nothing when no record of the cache is such, in particular on
    an empty cache. *)
Theorem C3_find_flight_by_airline_first_match (m : AgentMemory) (airline_name : string) :
  match find_flight_by_airline m airline_name with
  | Some r =>
      ∃ pre post, flight_cache m = pre ++ r :: post
        ∧ substring_of (normalize airline_name) (normalize (airline r))
        ∧ ∀ x, x ∈ pre →
            ¬ substring_of (normalize airline_name) (normalize (airline x))
  | None =>
      ∀ x, x ∈ flight_cache m →
        ¬ substring_of (normalize airline_name) (normalize (airline x))
  end
  ∧ find_flight_by_airline (set_flight_cache [] m) airline_name = None.
Proof.
  split; [|reflexivity].
  unfold find_flight_by_airline.
  pose proof (find_by_airline_in_spec (normalize airline_name) (flight_cache m)) as S.
  fold (normalize airline_name).
  destruct (find_by_airline_in (normalize airline_name) (flight_cache m)) as [r|].
  - destruct S as (pre & post & Hc & Hr & Hpre). exists pre, post.
    split; [done|]. split; [by apply contains_spec|].
    intros x Hx. apply contains_false. by eapply Forall_forall in Hpre; [|exact Hx].
  - intros x Hx. apply contains_false. by eapply Forall_forall in S; [|exact Hx].
Qed.

Lemma C3_find_flight_by_airline_first_match_witness :
  (find_flight_by_airline searched_memory "AIR" = Some british_airways
   ∧ ∃ pre post, flight_cache searched_memory = pre ++ british_airways :: post
       ∧ substring_of (normalize "AIR") (normalize (airline british_airways))
       ∧ ∀ x, x ∈ pre → ¬ substring_of (normalize "AIR") (normalize (airline x)))
  ∧ (find_flight_by_airline searched_memory "Delta" = None
     ∧ ∀ x, x ∈ flight_cache searched_memory →
         ¬ substring_of (normalize "Delta") (normalize (airline x))).
Proof.
  split; (split; [vm_compute; reflexivity|]).
  - exact (proj1 (C3_find_flight_by_airline_first_match searched_memory "AIR")).
  - exact (proj1 (C3_find_flight_by_airline_first_match searched_memory "Delta")).
Defined.

(** C4. On a non-empty cache find_cheapest_flight returns a record whose
    price is minimal in the cache, and of the records with that price the
    earliest in cache order: every record before it is strictly dearer.  On
    an empty cache it returns nothing. *)
Theorem C4_find_cheapest_flight_stable_minimum (m : AgentMemory) :
  match find_cheapest_flight m with
  | Some r =>
      ∃ pre post, flight_cache m = pre ++ r :: post
        ∧ (∀ x, x ∈ flight_cache m → price r <= price x)
        ∧ (∀ x, x ∈ pre → price r < price x)
  | None => flight_cache m = []
  end
  ∧ find_cheapest_flight (set_flight_cache [] m) = None.
Proof.
  split; [|reflexivity].
  unfold find_cheapest_flight. destruct (flight_cache m) as [|x xs]; [done|].
  destruct (min_from_spec price x xs) as (pre & post & Heq & Hall & Hpre).
  exists pre, post. split; [done|]. split.
  - intros y Hy. by eapply Forall_forall in Hall; [|exact Hy].
  - intros y Hy. by eapply Forall_forall in Hpre; [|exact Hy].
Qed.

Lemma C4_find_cheapest_flight_stable_minimum_witness :
  find_cheapest_flight tied_memory = Some air_france
  ∧ ∃ pre post, flight_cache tied_memory = pre ++ air_france :: post
      ∧ (∀ x, x ∈ flight_cache tied_memory → price air_france <= price x)
      ∧ (∀ x, x ∈ pre → price air_france < price x).
Proof.
  split; [vm_compute; reflexivity|].
  exact (proj1 (C4_find_cheapest_flight_stable_minimum tied_memory)).
Defined.

(** ** Price parsing *)

Section Prices.

Lemma digit_value_range c : PyStr.is_digit c = true → 0 <= digit_value c <= 9.
Proof. unfold PyStr.is_digit, digit_value. lia. Qed.

Lemma numeral_nonneg s : 0 <= numeral (digits_of s).
Proof.
  induction s as [|c s IH]; simpl; [lia|].
  destruct (PyStr.is_digit c) eqn:Hc; [|done]. simpl.
  pose proof (digit_value_range c Hc).
  assert (0 <= 10 ^ Z.of_nat (length (digits_of s))) by (apply Z.pow_nonneg; lia).
  nia.
Qed.

Lemma int_digits_from_numeral acc s :
  int_digits_from acc (re_sub_non_digits s)
  = acc * 10 ^ Z.of_nat (length (digits_of s)) + numeral (digits_of s).
Proof.
  unfold re_sub_non_digits.
  revert acc; induction s as [|c s IH]; intros acc; simpl; [lia|].
  destruct (PyStr.is_digit c) eqn:Hc; [|apply IH]. simpl. rewrite IH.
  rewrite Nat2Z.inj_succ, Z.pow_succ_r by lia. ring.
Qed.

Lemma has_digit_false s : has_digit s = false → re_sub_non_digits s = EmptyString.
Proof.
  unfold re_sub_non_digits. induction s as [|c s IH]; simpl; [done|].
  intros [Hc Hs]%orb_false_iff. rewrite Hc. by apply IH.
Qed.

Lemma has_digit_true s :
  has_digit s = true → ∃ c t, re_sub_non_digits s = String c t.
Proof.
  unfold re_sub_non_digits. induction s as [|c s IH]; simpl; [done|].
  destruct (PyStr.is_digit c); simpl; [by eexists _, _|apply IH].
Qed.

Lemma length_re_sub_non_digits s :
  Z.of_nat (String.length (re_sub_non_digits s)) = digit_count s.
Proof.
  unfold re_sub_non_digits, digit_count. f_equal.
  induction s as [|c s IH]; simpl; [done|].
  destruct (PyStr.is_digit c); simpl; by rewrite IH.
Qed.

Lemma parse_price_spec s :
  parse_price s =
    (if has_digit s
     then if digit_count s <=? int_max_str_digits then numeral (digits_of s) else 999999
     else 999999)
  ∧ 0 <= parse_price s.
Proof.
  unfold parse_price, py_int. destruct (has_digit s) eqn:Hd.
  - destruct (has_digit_true s Hd) as (c & t & Heq).
    pose proof (int_digits_from_numeral 0 s) as Hn.
    pose proof (length_re_sub_non_digits s) as Hl.
    rewrite Heq in Hn, Hl |- *. rewrite Hl.
    pose proof (numeral_nonneg s).
    destruct (int_max_str_digits <? digit_count s) eqn:Hlim.
    + apply Z.ltb_lt in Hlim.
      rewrite (proj2 (Z.leb_gt _ _)) by done. split; lia.
    + apply Z.ltb_ge in Hlim.
      rewrite (proj2 (Z.leb_le _ _)) by done. rewrite Hn. split; lia.
  - rewrite (has_digit_false s Hd). split; [done|lia].
Qed.

Lemma digits_of_repeat_one n : digits_of (repeat_char "1" n) = repeat 1 n.
Proof. induction n as [|n IH]; simpl; [done|]. by rewrite IH. Qed.

Lemma parse_price_over_limit s :
  int_max_str_digits < digit_count s → parse_price s = 999999.
Proof.
  intros Hlim. destruct (parse_price_spec s) as [-> _].
  destruct (has_digit s); [|done].
  by rewrite (proj2 (Z.leb_gt _ _)).
Qed.

Lemma digit_count_repeat_one n : digit_count (repeat_char "1" n) = Z.of_nat n.
Proof. unfold digit_count. by rewrite digits_of_repeat_one, repeat_length. Qed.

Lemma numeral_repeat_one n :
  (6 <= n)%nat → 999999 < numeral (digits_of (repeat_char "1" (S n))).
Proof.
  intros Hn. cbn [repeat_char digits_of].
  change (PyStr.is_digit "1") with true. cbn [numeral].
  change (digit_value "1") with 1.
  pose proof (numeral_nonneg (repeat_char "1" n)).
  rewrite digits_of_repeat_one, repeat_length in *.
  assert (10 ^ 6 <= 10 ^ Z.of_nat n) by (apply Z.pow_le_mono_r; lia).
  assert (999999 < 10 ^ 6) by reflexivity. lia.
Qed.

Lemma long_price_digits :
  digit_count long_price = 4301 ∧ 999999 < numeral (digits_of long_price).
Proof.
  split.
  - unfold long_price. rewrite digit_count_repeat_one. reflexivity.
  - apply (numeral_repeat_one 4300). apply Nat.leb_le. reflexivity.
Qed.

Lemma update_cache_single fid al dep p org dst m :
  update_cache [offer fid al dep p] org dst m
  = (Ok tt,
     set_flight_cache
       [{| flight_id := fid; airline := al; price := parse_price p; raw_price := p;
           departure := dep; origin := org; destination := dst |}] m).
Proof.
  rewrite update_cache_complete; [reflexivity|].
  repeat constructor; vm_compute; eauto.
Qed.

End Prices.

(** C6. When update_cache is given offers that all carry the four keys it
    reads, it returns normally and stores one record per offer; the record
    of an offer whose price display string is [s] keeps [s] as raw price.
    Its price is the number the digit characters of [s] denote in order, a
    non-negative integer, when [s] has at least one digit and no more than
    the 4300 that [int] converts; it is 999999 when [s] has no digit, and
    also when it has more than 4300. *)
Theorem C6_price_parsing
    (pre post : list raw_offer) (f : raw_offer) (s : string)
    (origin dest : pyval) (m : AgentMemory) :
  Forall complete (pre ++ f :: post) →
  f !! "price" = Some s →
  ∃ built r,
    update_cache (pre ++ f :: post) origin dest m = (Ok tt, set_flight_cache built m)
    ∧ length built = length (pre ++ f :: post)
    ∧ built !! length pre = Some r
    ∧ raw_price r = s
    ∧ price r =
        (if has_digit s
         then if digit_count s <=? int_max_str_digits
              then numeral (digits_of s) else 999999
         else 999999)
    ∧ 0 <= price r.
Proof.
  intros Hall Hs.
  pose proof (built_prefix_complete origin dest _ Hall) as Hb.
  exists (built_prefix origin dest (pre ++ f :: post)).
  assert (Hf : complete f).
  { eapply Forall_forall in Hall; [exact Hall|]. set_solver. }
  apply (build_record_complete origin dest) in Hf as [r Hr].
  exists r. split; [by apply update_cache_complete|].
  split. { apply (f_equal length) in Hb. by rewrite !length_fmap in Hb. }
  split.
  { apply (f_equal (λ l, l !! length pre)) in Hb.
    rewrite !list_lookup_fmap, list_lookup_middle in Hb by done.
    simpl in Hb. rewrite Hr in Hb.
    destruct (built_prefix origin dest (pre ++ f :: post) !! length pre); simpl in Hb;
      congruence. }
  unfold build_record in Hr. rewrite Hs in Hr. simpl in Hr.
  destruct (f !! "flight_id"), (f !! "airline"), (f !! "departure_time");
    simpl in Hr; try discriminate.
  injection Hr as <-. simpl. split; [done|]. apply parse_price_spec.
Qed.

Lemma C6_price_parsing_witness :
  (∃ built r,
     update_cache [priced_offer; unpriced_offer] (PStr "London") (PStr "Paris")
       AgentMemory_init = (Ok tt, set_flight_cache built AgentMemory_init)
     ∧ length built = 2%nat ∧ built !! 0%nat = Some r
     ∧ raw_price r = "$1,420.50" ∧ price r = 142050 ∧ 0 <= price r)
  ∧ (∃ built r,
       update_cache [priced_offer; unpriced_offer] (PStr "London") (PStr "Paris")
         AgentMemory_init = (Ok tt, set_flight_cache built AgentMemory_init)
       ∧ length built = 2%nat ∧ built !! 1%nat = Some r
       ∧ raw_price r = "call us" ∧ price r = 999999 ∧ 0 <= price r).
Proof.
  assert (Hc : Forall complete [priced_offer; unpriced_offer]).
  { repeat constructor; vm_compute; eauto. }
  split.
  - exact (C6_price_parsing [] [unpriced_offer] priced_offer "$1,420.50"
             (PStr "London") (PStr "Paris") AgentMemory_init Hc eq_refl).
  - exact (C6_price_parsing [priced_offer] [] unpriced_offer "call us"
             (PStr "London") (PStr "Paris") AgentMemory_init Hc eq_refl).
Defined.

(** A display string of 4301 digits has a digit, and the number its digits
    denote is above 999999; yet update_cache, which returns normally, stores
    999999 for it: [int] refuses more than 4300 digits with the ValueError
    that the loop body catches. *)
Lemma C6_counterexample_long_price :
  has_digit long_price = true
  ∧ 999999 < numeral (digits_of long_price)
  ∧ update_cache [offer "ZZ-9999" "Zed Air" "01:00 AM" long_price]
      (PStr "London") (PStr "Paris") AgentMemory_init
    = (Ok tt,
       set_flight_cache
         [{| flight_id := "ZZ-9999"; airline := "Zed Air"; price := 999999;
             raw_price := long_price; departure := "01:00 AM";
             origin := PStr "London"; destination := PStr "Paris" |}]
         AgentMemory_init).
Proof.
  destruct long_price_digits as [Hcount Hnum].
  split; [reflexivity|]. split; [exact Hnum|].
  rewrite update_cache_single, parse_price_over_limit; [reflexivity|].
  rewrite Hcount. reflexivity.
Qed.

(** ** The orchestrator *)

Section Orchestrator.
Variable w : World.
Implicit Types (s : TravelAgentSystem) (d : gmap string pyval).

Lemma after_after s es es' : after (after s es) es' = after s (es ++ es').
Proof. unfold after; simpl. by rewrite <- app_assoc. Qed.

Lemma emit_run e s : emit e s = (Ok tt, after s [e]).
Proof. reflexivity. Qed.

Lemma extract_parameters_run user_input s :
  _extract_parameters w user_input s =
  (Ok match interpret w user_input with
      | TryLoaded v => v
      | TryRaised => GENERAL_payload
      end, after s [Interpretation user_input]).
Proof.
  unfold _extract_parameters, bind. rewrite emit_run.
  by destruct (interpret w user_input).
Qed.

Lemma booking_result_lookup (a b c e : pyval) :
  let booking_result : gmap string pyval :=
    {[ "status" := a; "pnr" := b; "flight_id" := c; "passenger" := e ]} in
  booking_result !! "flight_id" = Some c ∧ booking_result !! "passenger" = Some e
  ∧ booking_result !! "pnr" = Some b ∧ booking_result !! "status" = Some a.
Proof. by vm_compute. Qed.

Lemma handle_booking_run d s target :
  booking_target_of d = Ok target →
  _handle_booking w (PDict d) s =
  match booked_record (memory s) target with
  | Some r =>
      _generate_response w (confirmation_context w r (passenger_of d))
        (after s [CommitReservation (flight_id r) (passenger_of d)])
  | None => (Ok clarification, s)
  end.
Proof.
  unfold booking_target_of, _handle_booking, py_get, bind, lift, get. intros Ht.
  assert (Hl : py_lower (match d !! "booking_target" with
                         | Some x => x
                         | None => PStr EmptyString
                         end) = Ok target).
  { destruct (d !! "booking_target"); [done|]. by injection Ht as <-. }
  rewrite Hl. unfold booked_record.
  set (chosen := if PyStr.contains "cheapest" target then _ else _).
  assert (Hc : chosen =
               if PyStr.contains "cheapest" target then find_cheapest_flight (memory s)
               else match find_flight_by_airline (memory s) target with
                    | Some r => Some r
                    | None => get_flight_by_id (memory s) (PyStr.upper target)
                    end).
  { subst chosen. destruct (PyStr.contains "cheapest" target); [done|].
    by destruct (find_flight_by_airline (memory s) target). }
  rewrite Hc. clear Hc chosen.
  match goal with |- context [match ?c with Some _ => _ | None => (Ok clarification, s) end] =>
    destruct c as [r|] end; [|reflexivity].
  assert (Hp : passenger_of d = match d !! "passenger" with
                                | Some x => x
                                | None => PStr "Guest"
                                end).
  { unfold passenger_of. by destruct (d !! "passenger"). }
  rewrite Hp. set (p := match d !! "passenger" with Some x => x | None => _ end).
  unfold _commit_reservation, bind, ret, getitem. rewrite emit_run.
  destruct (booking_result_lookup (PStr "CONFIRMED")
              (PStr ("PNR" +:+ PyStr.upper (PyStr.take 6 (uuid4 w))))
              (PStr (flight_id r)) p) as (H1 & H2 & H3 & H4).
  rewrite H1, H2, H3, H4. reflexivity.
Qed.

Lemma booking_target_of_steps d slot target :
  py_get (PDict d) "booking_target" (PStr EmptyString) = Ok slot →
  py_lower slot = Ok target →
  booking_target_of d = Ok target.
Proof.
  unfold booking_target_of. simpl. intros [= <-].
  destruct (d !! "booking_target"); [done|]. by intros [= <-].
Qed.

Lemma handle_booking_raises d s e :
  booking_target_of d = Raise e → _handle_booking w (PDict d) s = (Raise e, s).
Proof.
  unfold booking_target_of, _handle_booking, py_get, bind, lift. intros Ht.
  destruct (d !! "booking_target"); [|discriminate]. by rewrite Ht.
Qed.

Lemma handle_request_run user_input s :
  handle_request w user_input s =
  let s' := after s [Interpretation user_input] in
  match interpret w user_input with
  | TryRaised => (Ok capability, s')
  | TryLoaded (PDict d) =>
      let intent := default (PStr "GENERAL") (d !! "intent") in
      if eq_str intent "SEARCH" then _handle_search w (PDict d) s'
      else if eq_str intent "BOOK" then _handle_booking w (PDict d) s'
      else (Ok capability, s')
  | TryLoaded _ => (Raise (AttributeError "get"), s')
  end.
Proof.
  unfold handle_request, bind. rewrite extract_parameters_run.
  destruct (interpret w user_input) as [|[]]; try reflexivity.
  unfold lift, py_get. destruct (d !! "intent") as [p|]; cbn [default id];
    [destruct (eq_str p "SEARCH"), (eq_str p "BOOK")|]; reflexivity.
Qed.

Lemma handle_request_book user_input s d :
  interpret w user_input = TryLoaded (PDict d) →
  d !! "intent" = Some (PStr "BOOK") →
  handle_request w user_input s =
  _handle_booking w (PDict d) (after s [Interpretation user_input]).
Proof. intros Hi Hb. rewrite handle_request_run, Hi. simpl. by rewrite Hb. Qed.

Lemma resolve_date_none {S} (st : S) :
  _resolve_date w PNone st = (Ok (PyDate.strftime_Ymd (today w)), st).
Proof. reflexivity. Qed.

Lemma tomorrow_not_in_empty : PyStr.contains "tomorrow" (PyStr.lower EmptyString) = false.
Proof. reflexivity. Qed.

Lemma resolve_date_str {S} (st : S) (r : string) :
  _resolve_date w (PStr r) st =
  if PyStr.contains "tomorrow" (PyStr.lower r)
  then (match PyDate.add_days (today w) 1 with
        | Ok t => Ok (PyDate.strftime_Ymd t)
        | Raise e => Raise e
        end, st)
  else (Ok (PyDate.strftime_Ymd (today w)), st).
Proof.
  unfold _resolve_date. destruct r as [|c r]; [reflexivity|].
  cbn [truthy negb]. rewrite bool_decide_eq_false_2 by discriminate.
  cbn [negb py_lower]. unfold bind, lift, ret.
  destruct (PyStr.contains "tomorrow" _).
  - by destruct (PyDate.add_days (today w) 1).
  - by destruct (PyStr.contains "today" _).
Qed.

End Orchestrator.

(** C2. For a BOOK payload whose booking_target slot ([slot], the empty
    string when the key is absent), lower-cased, is [target], _handle_booking
    books the record [booked_record] names: the one find_cheapest_flight
    returns when [target] contains "cheapest", otherwise the one
    find_flight_by_airline returns for [target], and only when that is
    nothing the one get_flight_by_id returns for [target] upper-cased.  The
    reservation is committed with that record's identifier and the
    confirmation names that record; with no such record nothing is booked. *)
Theorem C2_booking_entity_resolution
    (w : World) (d : gmap string pyval) (s : TravelAgentSystem)
    (slot : pyval) (target : string) :
  py_get (PDict d) "booking_target" (PStr EmptyString) = Ok slot →
  py_lower slot = Ok target →
  booked_record (memory s) target =
    (if PyStr.contains "cheapest" target then find_cheapest_flight (memory s)
     else match find_flight_by_airline (memory s) target with
          | Some r => Some r
          | None => get_flight_by_id (memory s) (PyStr.upper target)
          end)
  ∧ match booked_record (memory s) target with
    | Some r =>
        _handle_booking w (PDict d) s =
        _generate_response w (confirmation_context w r (passenger_of d))
          (after s [CommitReservation (flight_id r) (passenger_of d)])
    | None => _handle_booking w (PDict d) s = (Ok clarification, s)
    end.
Proof.
  intros Hslot Hlower. split; [reflexivity|].
  rewrite (handle_booking_run w d s target (booking_target_of_steps d slot target Hslot Hlower)).
  by destruct (booked_record (memory s) target).
Qed.

Lemma C2_booking_entity_resolution_witness :
  py_get (PDict book_by_identifier) "booking_target" (PStr EmptyString) = Ok (PStr "af-1923")
  ∧ py_lower (PStr "af-1923") = Ok "af-1923"
  ∧ find_flight_by_airline (memory searched_system) "af-1923" = None
  ∧ _handle_booking (sample_world TryRaised) (PDict book_by_identifier) searched_system =
    _generate_response (sample_world TryRaised)
      (confirmation_context (sample_world TryRaised) air_france (PStr "Guest"))
      (after searched_system [CommitReservation "AF-1923" (PStr "Guest")]).
Proof.
  assert (Hslot : py_get (PDict book_by_identifier) "booking_target" (PStr EmptyString)
                  = Ok (PStr "af-1923")) by (vm_compute; reflexivity).
  assert (Hlower : py_lower (PStr "af-1923") = Ok "af-1923") by (vm_compute; reflexivity).
  split; [exact Hslot|]. split; [exact Hlower|]. split; [vm_compute; reflexivity|].
  exact (proj2 (C2_booking_entity_resolution (sample_world TryRaised)
                  book_by_identifier searched_system (PStr "af-1923") "af-1923"
                  Hslot Hlower)).
Defined.

(** C5. When the target of a BOOK payload resolves to no record, the turn
    returns the fixed clarification message; the only call made during the
    turn is the interpretation of the user input, so neither the
    reservation is committed nor the generation service invoked, and the
    memory is left as it was. *)
Theorem C5_unresolved_booking_short_circuits
    (w : World) (user_input : string) (d : gmap string pyval)
    (s : TravelAgentSystem) (slot : pyval) (target : string) :
  interpret w user_input = TryLoaded (PDict d) →
  d !! "intent" = Some (PStr "BOOK") →
  py_get (PDict d) "booking_target" (PStr EmptyString) = Ok slot →
  py_lower slot = Ok target →
  booked_record (memory s) target = None →
  ∃ turn,
    handle_request w user_input s = (Ok clarification, after s turn)
    ∧ turn = [Interpretation user_input]
    ∧ Forall (λ e, is_commit e = false ∧ is_generation e = false) turn.
Proof.
  intros Hi Hb Hslot Hlower Hnone. exists [Interpretation user_input].
  split; [|split; [done|by repeat constructor]].
  rewrite (handle_request_book w user_input s d Hi Hb).
  rewrite (handle_booking_run w d _ target
             (booking_target_of_steps d slot target Hslot Hlower)).
  simpl. by rewrite Hnone.
Qed.

Lemma C5_unresolved_booking_short_circuits_witness :
  ∃ turn,
    handle_request (sample_world (TryLoaded (PDict book_delta))) "book the Delta one"
      searched_system = (Ok clarification, after searched_system turn)
    ∧ turn = [Interpretation "book the Delta one"]
    ∧ Forall (λ e, is_commit e = false ∧ is_generation e = false) turn.
Proof.
  apply (C5_unresolved_booking_short_circuits (sample_world (TryLoaded (PDict book_delta)))
           "book the Delta one" book_delta searched_system (PStr "Delta") "delta");
    vm_compute; reflexivity.
Defined.

(** C7.  With [d] the current date: a null reference resolves
    to [d]; a reference that contains "tomorrow", in any case, resolves to
    the day after [d] provided [d] is not the last date the date type holds
    (9999-12-31); a reference without "tomorrow" resolves to [d], whether it
    contains "today" or not.  The result is the date written as
    year-month-day. *)
Theorem C7_resolve_date {S} (w : World) (st : S) (r : string) :
  valid_date (today w) →
  _resolve_date w PNone st = (Ok (PyDate.strftime_Ymd (today w)), st)
  ∧ (PyStr.contains "tomorrow" (PyStr.lower r) = true →
     PyDate.toordinal (today w) < PyDate.MAXORDINAL →
     _resolve_date w (PStr r) st =
     (Ok (PyDate.strftime_Ymd {| PyDate.toordinal := PyDate.toordinal (today w) + 1 |}), st))
  ∧ (PyStr.contains "tomorrow" (PyStr.lower r) = false →
     PyStr.contains "today" (PyStr.lower r) = true →
     _resolve_date w (PStr r) st = (Ok (PyDate.strftime_Ymd (today w)), st))
  ∧ (PyStr.contains "tomorrow" (PyStr.lower r) = false →
     PyStr.contains "today" (PyStr.lower r) = false →
     _resolve_date w (PStr r) st = (Ok (PyDate.strftime_Ymd (today w)), st)).
Proof.
  intros [Hlo Hhi]. split; [reflexivity|].
  rewrite resolve_date_str. repeat split.
  - intros -> Hmax. unfold PyDate.add_days.
    destruct (_ && _) eqn:Hrange; [done|].
    apply andb_false_iff in Hrange as [H|H]; lia.
  - by intros ->.
  - by intros ->.
Qed.

Lemma C7_resolve_date_witness :
  valid_date (today (sample_world TryRaised))
  ∧ _resolve_date (sample_world TryRaised) PNone tt = (Ok "2024-01-10", tt)
  ∧ _resolve_date (sample_world TryRaised) (PStr "Tomorrow morning") tt
    = (Ok "2024-01-11", tt)
  ∧ _resolve_date (sample_world TryRaised) (PStr "later today") tt = (Ok "2024-01-10", tt)
  ∧ _resolve_date (sample_world TryRaised) (PStr "next Monday") tt = (Ok "2024-01-10", tt).
Proof.
  assert (Hv : valid_date (today (sample_world TryRaised)))
    by (vm_compute; split; discriminate).
  split; [exact Hv|]. split; [|split; [|split]].
  - exact (proj1 (C7_resolve_date (sample_world TryRaised) tt "" Hv)).
  - apply (proj1 (proj2 (C7_resolve_date (sample_world TryRaised) tt "Tomorrow morning" Hv)));
      [reflexivity | vm_compute; reflexivity].
  - apply (proj1 (proj2 (proj2
             (C7_resolve_date (sample_world TryRaised) tt "later today" Hv))));
      reflexivity.
  - apply (proj2 (proj2 (proj2
             (C7_resolve_date (sample_world TryRaised) tt "next Monday" Hv))));
      reflexivity.
Defined.

(** On 9999-12-31 a reference to "tomorrow" does not resolve: the addition
    of a day raises OverflowError. *)
Lemma C7_counterexample_last_day :
  valid_date (today last_day_world)
  ∧ PyDate.strftime_Ymd (today last_day_world) = "9999-12-31"
  ∧ PyStr.contains "tomorrow" (PyStr.lower "tomorrow") = true
  ∧ _resolve_date last_day_world (PStr "tomorrow") tt = (Raise OverflowError, tt).
Proof.
  split; [vm_compute; split; discriminate|].
  repeat split; vm_compute; reflexivity.
Qed.

(** X23. _extract_parameters never raises: it returns the value json.loads
    produced, as it is, when the [try] block returns, and
    [{"intent": "GENERAL"}] when the block raises (the service call, the
    reading of its text, or the parse of a text that is not JSON).  In the
    second case, and for every object payload whose intent is absent or is
    neither "SEARCH" nor "BOOK", the turn returns the capability statement
    after the interpretation call alone, the memory untouched. *)
Theorem X23_extract_parameters_fail_soft
    (w : World) (user_input : string) (s : TravelAgentSystem) :
  _extract_parameters w user_input s
    = (Ok match interpret w user_input with
          | TryLoaded v => v
          | TryRaised => GENERAL_payload
          end, after s [Interpretation user_input])
  ∧ (interpret w user_input = TryRaised →
     py_get GENERAL_payload "intent" (PStr "GENERAL") = Ok (PStr "GENERAL")
     ∧ handle_request w user_input s
       = (Ok capability, after s [Interpretation user_input]))
  ∧ (∀ d, interpret w user_input = TryLoaded (PDict d) →
          eq_str (default (PStr "GENERAL") (d !! "intent")) "SEARCH" = false →
          eq_str (default (PStr "GENERAL") (d !! "intent")) "BOOK" = false →
          handle_request w user_input s
          = (Ok capability, after s [Interpretation user_input])).
Proof.
  split; [apply extract_parameters_run|]. split.
  - intros Hi. rewrite handle_request_run, Hi. by split.
  - intros d Hi Hs Hb. rewrite handle_request_run, Hi. simpl. by rewrite Hs, Hb.
Qed.

Lemma X23_extract_parameters_fail_soft_witness :
  handle_request (sample_world TryRaised) "hello" searched_system
    = (Ok capability, after searched_system [Interpretation "hello"])
  ∧ handle_request (sample_world (TryLoaded (PDict payload_without_intent))) "hello"
      searched_system
    = (Ok capability, after searched_system [Interpretation "hello"]).
Proof.
  split.
  - exact (proj2 (proj1 (proj2 (X23_extract_parameters_fail_soft
                                  (sample_world TryRaised) "hello" searched_system))
                    eq_refl)).
  - apply (proj2 (proj2 (X23_extract_parameters_fail_soft
                           (sample_world (TryLoaded (PDict payload_without_intent)))
                           "hello" searched_system)) payload_without_intent);
      reflexivity.
Defined.

(** C8. The claim fails on a response that is valid JSON but no object,
    here the array [[]]: _extract_parameters returns it as the payload,
    which is not [{"intent": "GENERAL"}] and has no intent to read, and
    handle_request raises AttributeError on the payload's missing [get]
    instead of returning the capability statement. *)
Lemma C8_counterexample_json_array :
  _extract_parameters (sample_world (TryLoaded (PList []))) "book it" TravelAgentSystem_init
    = (Ok (PList []), after TravelAgentSystem_init [Interpretation "book it"])
  ∧ PList [] ≠ GENERAL_payload
  ∧ py_get (PList []) "intent" (PStr "GENERAL") = Raise (AttributeError "get")
  ∧ handle_request (sample_world (TryLoaded (PList []))) "book it" TravelAgentSystem_init
    = (Raise (AttributeError "get"), after TravelAgentSystem_init [Interpretation "book it"])
  ∧ (handle_request (sample_world (TryLoaded (PList []))) "book it"
       TravelAgentSystem_init).1 ≠ Ok capability.
Proof. by repeat split. Qed.

(** C9. A BOOK payload without a booking_target key, on a non-empty cache:
    the target is the empty string, whose normal form occurs in every
    normalized carrier name, so the first record of the cache is the one
    resolved; the reservation is committed with the identifier of that
    record and the turn goes on to the generation service rather than
    returning the clarification message. *)
Theorem C9_absent_target_books_first_record
    (w : World) (user_input : string) (d : gmap string pyval)
    (s : TravelAgentSystem) (r : FlightRecord) (rest : list FlightRecord) :
  interpret w user_input = TryLoaded (PDict d) →
  d !! "intent" = Some (PStr "BOOK") →
  d !! "booking_target" = None →
  flight_cache (memory s) = r :: rest →
  py_get (PDict d) "booking_target" (PStr EmptyString) = Ok (PStr EmptyString)
  ∧ py_lower (PStr EmptyString) = Ok EmptyString
  ∧ (∀ carrier, substring_of (normalize EmptyString) (normalize carrier))
  ∧ booked_record (memory s) EmptyString = Some r
  ∧ handle_request w user_input s =
    _generate_response w (confirmation_context w r (passenger_of d))
      (after s [Interpretation user_input;
                CommitReservation (flight_id r) (passenger_of d)]).
Proof.
  intros Hi Hb Hnone Hcache.
  assert (Ht : booking_target_of d = Ok EmptyString).
  { unfold booking_target_of. by rewrite Hnone. }
  assert (Hr : booked_record (memory s) EmptyString = Some r).
  { unfold booked_record, find_flight_by_airline. rewrite Hcache. simpl.
    by rewrite contains_empty. }
  split; [simpl; by rewrite Hnone|]. split; [done|]. split; [|split; [done|]].
  - intros carrier. apply contains_spec, contains_empty.
  - rewrite (handle_request_book w user_input s d Hi Hb).
    rewrite (handle_booking_run w d _ EmptyString Ht). simpl. rewrite Hr.
    by rewrite after_after.
Qed.

Lemma C9_absent_target_books_first_record_witness :
  flight_cache (memory searched_system) = [british_airways; air_france; lufthansa]
  ∧ handle_request (sample_world (TryLoaded (PDict book_without_target))) "book it"
      searched_system =
    _generate_response (sample_world (TryLoaded (PDict book_without_target)))
      (confirmation_context (sample_world (TryLoaded (PDict book_without_target)))
         british_airways (PStr "Robin"))
      (after searched_system
         [Interpretation "book it"; CommitReservation "BA-2847" (PStr "Robin")]).
Proof.
  assert (Hc : flight_cache (memory searched_system)
               = [british_airways; air_france; lufthansa])
    by (vm_compute; reflexivity).
  split; [exact Hc|].
  exact (proj2 (proj2 (proj2 (proj2
    (C9_absent_target_books_first_record
       (sample_world (TryLoaded (PDict book_without_target))) "book it"
       book_without_target searched_system british_airways _
       eq_refl eq_refl eq_refl Hc))))).
Defined.

(** C10. A BOOK payload whose booking_target key is present with the value
    null: the lookup yields [None], [lower] is not a method of it, and
    handle_request raises AttributeError to its caller after the
    interpretation call alone, returning no reply. *)
Theorem C10_null_target_raises
    (w : World) (user_input : string) (d : gmap string pyval) (s : TravelAgentSystem) :
  interpret w user_input = TryLoaded (PDict d) →
  d !! "intent" = Some (PStr "BOOK") →
  d !! "booking_target" = Some PNone →
  py_get (PDict d) "booking_target" (PStr EmptyString) = Ok PNone
  ∧ py_lower PNone = Raise (AttributeError "lower")
  ∧ handle_request w user_input s
    = (Raise (AttributeError "lower"), after s [Interpretation user_input]).
Proof.
  intros Hi Hb Hnull. split; [simpl; by rewrite Hnull|]. split; [done|].
  rewrite (handle_request_book w user_input s d Hi Hb).
  apply handle_booking_raises. unfold booking_target_of. by rewrite Hnull.
Qed.

Lemma C10_null_target_raises_witness :
  handle_request (sample_world (TryLoaded (PDict book_null_target))) "book something"
    searched_system
  = (Raise (AttributeError "lower"), after searched_system [Interpretation "book something"]).
Proof.
  exact (proj2 (proj2
    (C10_null_target_raises (sample_world (TryLoaded (PDict book_null_target)))
       "book something" book_null_target searched_system eq_refl eq_refl eq_refl))).
Defined.

(** ** Date arithmetic on sample days *)

Example date_examples :
  PyDate.strftime_Ymd <$> [PyDate.of_ymd 2024 2 29; PyDate.of_ymd 1900 3 1;
                           PyDate.of_ymd 9999 12 31]
    = ["2024-02-29"; "1900-03-01"; "9999-12-31"]
  ∧ PyDate.add_days (PyDate.of_ymd 2024 2 28) 1 = Ok (PyDate.of_ymd 2024 2 29)
  ∧ PyDate.add_days (PyDate.of_ymd 2023 2 28) 1 = Ok (PyDate.of_ymd 2023 3 1)
  ∧ PyDate.add_days (PyDate.of_ymd 2023 12 31) 1 = Ok (PyDate.of_ymd 2024 1 1)
  ∧ PyDate.toordinal (PyDate.of_ymd 9999 12 31) = PyDate.MAXORDINAL.
Proof. repeat split; vm_compute; reflexivity. Qed.

(** ** The scenario of the entry point *)

(** The search fills the memory with the three offers; the two bookings
    that follow commit the Lufthansa flight and then the cheapest one. *)
Example scenario_bookings :
  memory (run_turns scenario TravelAgentSystem_init).2 = searched_memory
  ∧ flight_cache searched_memory = [british_airways; air_france; lufthansa]
  ∧ filter (λ e, is_commit e = true) (journal (run_turns scenario TravelAgentSystem_init).2)
    = [CommitReservation "LH-5614" (PStr "Robin");
       CommitReservation "AF-1923" (PStr "Robin")]
  ∧ Forall (λ r, ∃ text, r = Ok text) (run_turns scenario TravelAgentSystem_init).1.
Proof.
  repeat split; try (vm_compute; reflexivity).
  vm_compute. repeat constructor; by eexists.
Qed.

(** * Further properties of the code *)

(** ** Characters *)

Lemma lower_upper_char c : PyStr.lower_char (PyStr.upper_char c) = PyStr.lower_char c.
Proof. by destruct c as [[] [] [] [] [] [] [] []]. Qed.

Lemma lower_lower_char c : PyStr.lower_char (PyStr.lower_char c) = PyStr.lower_char c.
Proof. by destruct c as [[] [] [] [] [] [] [] []]. Qed.

Lemma upper_char_not_lower c : PyStr.is_lower (PyStr.upper_char c) = false.
Proof. by destruct c as [[] [] [] [] [] [] [] []]. Qed.

Lemma lower_char_space c : (PyStr.code (PyStr.lower_char c) =? 32) = (PyStr.code c =? 32).
Proof. by destruct c as [[] [] [] [] [] [] [] []]. Qed.

Lemma map_chars_compose f g s :
  PyStr.map_chars f (PyStr.map_chars g s) = PyStr.map_chars (λ c, f (g c)) s.
Proof. induction s as [|c s IH]; simpl; [done|]. by rewrite IH. Qed.

Lemma map_chars_ext f g s : (∀ c, f c = g c) → PyStr.map_chars f s = PyStr.map_chars g s.
Proof. intros H. induction s as [|c s IH]; simpl; [done|]. by rewrite H, IH. Qed.

Lemma lower_upper s : PyStr.lower (PyStr.upper s) = PyStr.lower s.
Proof.
  unfold PyStr.lower, PyStr.upper. rewrite map_chars_compose.
  apply map_chars_ext, lower_upper_char.
Qed.

Lemma lower_lower s : PyStr.lower (PyStr.lower s) = PyStr.lower s.
Proof.
  unfold PyStr.lower. rewrite map_chars_compose.
  apply map_chars_ext, lower_lower_char.
Qed.

Lemma lower_remove_spaces s :
  PyStr.lower (PyStr.remove_spaces s) = PyStr.remove_spaces (PyStr.lower s).
Proof.
  unfold PyStr.lower, PyStr.remove_spaces.
  induction s as [|c s IH]; simpl; [done|].
  rewrite lower_char_space. destruct (PyStr.code c =? 32); simpl; by rewrite IH.
Qed.

Lemma remove_spaces_idem s :
  PyStr.remove_spaces (PyStr.remove_spaces s) = PyStr.remove_spaces s.
Proof.
  unfold PyStr.remove_spaces. induction s as [|c s IH]; simpl; [done|].
  destruct (PyStr.code c =? 32) eqn:Hc; simpl; [done|]. by rewrite Hc, IH.
Qed.

Lemma upper_no_lowercase s : no_lowercase (PyStr.upper s).
Proof.
  unfold no_lowercase, PyStr.upper. induction s as [|c s IH]; simpl; [done|].
  by rewrite upper_char_not_lower, IH.
Qed.

Lemma only_spaces_normalize s : only_spaces s → normalize s = EmptyString.
Proof.
  unfold only_spaces, normalize, PyStr.remove_spaces, PyStr.lower.
  induction s as [|c s IH]; simpl; [done|].
  intros [Hc Hs]%andb_true_iff. by rewrite lower_char_space, Hc, IH.
Qed.

(** ** The session memory *)

(** X1. get_flight_by_id returns the first record, in cache order, whose
    identifier is exactly the one asked for (the comparison is that of
    strings, so case matters), and nothing when the cache has none. *)
Theorem X1_get_flight_by_id_first_exact (m : AgentMemory) (fid : string) :
  match get_flight_by_id m fid with
  | Some r =>
      ∃ pre post, flight_cache m = pre ++ r :: post
        ∧ flight_id r = fid
        ∧ ∀ x, x ∈ pre → flight_id x ≠ fid
  | None => ∀ x, x ∈ flight_cache m → flight_id x ≠ fid
  end.
Proof.
  unfold get_flight_by_id. pose proof (get_by_id_in_spec fid (flight_cache m)) as S.
  destruct (get_by_id_in fid (flight_cache m)) as [r|].
  - destruct S as (pre & post & Hc & Hr & Hpre). exists pre, post.
    split; [done|]. split; [done|]. intros x Hx.
    by eapply Forall_forall in Hpre; [|exact Hx].
  - intros x Hx. by eapply Forall_forall in S; [|exact Hx].
Qed.

Lemma X1_get_flight_by_id_first_exact_witness :
  (∃ pre post, flight_cache searched_memory = pre ++ air_france :: post
     ∧ flight_id air_france = "AF-1923"
     ∧ ∀ x, x ∈ pre → flight_id x ≠ "AF-1923")
  ∧ (∀ x, x ∈ flight_cache searched_memory → flight_id x ≠ "af-1923").
Proof.
  split.
  - exact (X1_get_flight_by_id_first_exact searched_memory "AF-1923").
  - exact (X1_get_flight_by_id_first_exact searched_memory "af-1923").
Defined.

(** X2. update_cache is not atomic.  When the first offer that lacks one of
    the four keys comes after complete offers, the call raises KeyError for
    a key that offer lacks; the cache it leaves holds the records of the
    offers before it and nothing of what was cached before the call. *)
Theorem X2_update_cache_key_error
    (pre post : list raw_offer) (f : raw_offer) (origin dest : pyval) (m : AgentMemory) :
  Forall complete pre →
  ¬ complete f →
  ∃ k built,
    update_cache (pre ++ f :: post) origin dest m
      = (Raise (KeyError k), set_flight_cache built m)
    ∧ f !! k = None
    ∧ Some <$> built = build_record origin dest <$> pre.
Proof.
  intros Hpre Hf.
  assert (Hnone : build_record origin dest f = None).
  { destruct (build_record origin dest f) eqn:Hb; [|done].
    exfalso. apply Hf. apply (build_record_complete origin dest). by eexists. }
  assert (Hk : ∃ k, (∀ m', update_cache_body origin dest f m' = (Raise (KeyError k), m'))
                    ∧ f !! k = None).
  { unfold build_record in Hnone.
    unfold update_cache_body, getitem, bind, raise, ret.
    destruct (f !! "price") as [p|] eqn:H1; [|by exists "price"].
    destruct (f !! "flight_id") as [i|] eqn:H2; [|by exists "flight_id"].
    destruct (f !! "airline") as [a|] eqn:H3; [|by exists "airline"].
    destruct (f !! "departure_time") as [t|] eqn:H4; [discriminate|].
    by exists "departure_time". }
  destruct Hk as (k & Hbody & Hlook).
  exists k, (built_prefix origin dest pre). split; [|split; [done|]].
  - unfold update_cache, bind, modify. rewrite for_each_app.
    rewrite (for_each_complete origin dest pre _ Hpre). simpl.
    unfold bind. rewrite Hbody. reflexivity.
  - by apply built_prefix_complete.
Qed.

Lemma X2_update_cache_key_error_witness :
  ∃ k built,
    update_cache ([priced_offer] ++ offer_without_departure :: [unpriced_offer])
      (PStr "London") (PStr "Paris") searched_memory
      = (Raise (KeyError k), set_flight_cache built searched_memory)
    ∧ offer_without_departure !! k = None
    ∧ Some <$> built = build_record (PStr "London") (PStr "Paris") <$> [priced_offer].
Proof.
  apply X2_update_cache_key_error.
  - repeat constructor; vm_compute; eauto.
  - intros (_ & _ & _ & [x Hx]). vm_compute in Hx. discriminate.
Defined.

(** X3. On offers that all carry the four keys, update_cache keeps their
    number and their order, duplicates included: the record at each position
    carries the identifier, carrier, display price and departure time of the
    offer at that position and the origin and destination of the call. *)
Theorem X3_update_cache_positions
    (raw_flights : list raw_offer) (org dst : pyval) (m : AgentMemory)
    (i : nat) (f : raw_offer) :
  Forall complete raw_flights →
  raw_flights !! i = Some f →
  length (flight_cache (update_cache raw_flights org dst m).2) = length raw_flights
  ∧ ∃ r, flight_cache (update_cache raw_flights org dst m).2 !! i = Some r
      ∧ f !! "flight_id" = Some (flight_id r)
      ∧ f !! "airline" = Some (airline r)
      ∧ f !! "price" = Some (raw_price r)
      ∧ f !! "departure_time" = Some (departure r)
      ∧ origin r = org ∧ destination r = dst.
Proof.
  intros Hall Hi. rewrite update_cache_cache.
  pose proof (built_prefix_complete org dst _ Hall) as Hb.
  split. { apply (f_equal length) in Hb. by rewrite !length_fmap in Hb. }
  apply (f_equal (λ l, l !! i)) in Hb. rewrite !list_lookup_fmap, Hi in Hb. simpl in Hb.
  destruct (built_prefix org dst raw_flights !! i) as [r|]; [|discriminate].
  simpl in Hb. injection Hb as Hb. exists r. split; [done|].
  unfold build_record in Hb.
  destruct (f !! "price"), (f !! "flight_id"), (f !! "airline"), (f !! "departure_time");
    simpl in Hb; try discriminate.
  injection Hb as ->. by repeat split.
Qed.

Lemma X3_update_cache_positions_witness :
  length (flight_cache (update_cache [priced_offer; unpriced_offer] (PStr "London")
                          (PStr "Paris") searched_memory).2) = 2%nat
  ∧ ∃ r, flight_cache (update_cache [priced_offer; unpriced_offer] (PStr "London")
                         (PStr "Paris") searched_memory).2 !! 1%nat = Some r
      ∧ unpriced_offer !! "flight_id" = Some (flight_id r)
      ∧ unpriced_offer !! "airline" = Some (airline r)
      ∧ unpriced_offer !! "price" = Some (raw_price r)
      ∧ unpriced_offer !! "departure_time" = Some (departure r)
      ∧ origin r = PStr "London" ∧ destination r = PStr "Paris".
Proof.
  apply (X3_update_cache_positions [priced_offer; unpriced_offer] (PStr "London")
           (PStr "Paris") searched_memory 1 unpriced_offer).
  - repeat constructor; vm_compute; eauto.
  - reflexivity.
Defined.

Lemma update_cache_state raw_flights org dst m :
  (update_cache raw_flights org dst m).2
  = set_flight_cache (built_prefix org dst raw_flights) m.
Proof.
  unfold update_cache, bind, modify.
  destruct (for_each_cache org dst raw_flights (set_flight_cache [] m)) as [Hc Hl].
  destruct (for_each raw_flights (update_cache_body org dst) (set_flight_cache [] m))
    as [res m']. simpl in *. destruct m' as [c l]. simpl in *. by subst.
Qed.

Lemma update_cache_result_indep raw_flights org dst m m' :
  (update_cache raw_flights org dst m).1 = (update_cache raw_flights org dst m').1.
Proof.
  unfold update_cache, bind, modify.
  generalize (set_flight_cache [] m) (set_flight_cache [] m'). 
  induction raw_flights as [|f raw IH]; intros a b; simpl; [done|].
  unfold bind. destruct (build_record org dst f) as [r|] eqn:Hb.
  - rewrite !(body_built org dst f _ r Hb). apply IH.
  - unfold build_record in Hb. unfold update_cache_body, getitem, bind, raise, ret.
    destruct (f !! "price"); [|done]. destruct (f !! "flight_id"); [|done].
    destruct (f !! "airline"); [|done]. destruct (f !! "departure_time"); [discriminate|done].
Qed.

(** X4. update_cache forgets what was cached: whether it returns or raises,
    the memory it leaves has the cache the same call leaves on an empty one,
    and calling it twice with the same arguments leaves what one call
    leaves, with the same outcome. *)
Theorem X4_update_cache_idempotent
    (raw_flights : list raw_offer) (org dst : pyval) (m : AgentMemory) :
  flight_cache (update_cache raw_flights org dst m).2
    = flight_cache (update_cache raw_flights org dst (set_flight_cache [] m)).2
  ∧ update_cache raw_flights org dst (update_cache raw_flights org dst m).2
    = update_cache raw_flights org dst m.
Proof.
  split; [by rewrite !update_cache_cache|].
  apply injective_projections.
  - apply update_cache_result_indep.
  - rewrite !update_cache_state. reflexivity.
Qed.

(** X5. Storing then looking up.  After update_cache on offers that all
    carry the four keys, get_flight_by_id finds a record for an identifier
    exactly when one of the offers has that identifier, and the record found
    bears it. *)
Theorem X5_update_then_get_by_id
    (raw_flights : list raw_offer) (org dst : pyval) (m : AgentMemory) (fid : string) :
  Forall complete raw_flights →
  ((∃ f, f ∈ raw_flights ∧ f !! "flight_id" = Some fid)
   ↔ ∃ r, get_flight_by_id (update_cache raw_flights org dst m).2 fid = Some r)
  ∧ ∀ r, get_flight_by_id (update_cache raw_flights org dst m).2 fid = Some r →
         flight_id r = fid.
Proof.
  intros Hall.
  pose proof (built_prefix_complete org dst _ Hall) as Hb.
  unfold get_flight_by_id. rewrite update_cache_cache.
  pose proof (get_by_id_in_spec fid (built_prefix org dst raw_flights)) as S.
  split; [split|].
  - intros (f & Hf & Hid).
    destruct (get_by_id_in fid _) as [r|]; [by eexists|]. exfalso.
    apply list_elem_of_lookup in Hf as [i Hi].
    apply (f_equal (λ l, l !! i)) in Hb. rewrite !list_lookup_fmap, Hi in Hb.
    destruct (built_prefix org dst raw_flights !! i) as [r|] eqn:Hr; [|discriminate].
    simpl in Hb. injection Hb as Hb. unfold build_record in Hb. rewrite Hid in Hb.
    destruct (f !! "price"), (f !! "airline"), (f !! "departure_time");
      simpl in Hb; try discriminate.
    injection Hb as ->.
    eapply Forall_forall in S; [|exact (list_elem_of_lookup_2 _ _ _ Hr)]. by apply S.
  - intros [r Hr]. rewrite Hr in S. destruct S as (pre & post & Hc & Hid & _).
    assert (Hin : r ∈ built_prefix org dst raw_flights) by (rewrite Hc; set_solver).
    apply built_prefix_elem in Hin as (f & Hf & Hbuild). exists f. split; [done|].
    unfold build_record in Hbuild.
    destruct (f !! "price"), (f !! "flight_id"), (f !! "airline"), (f !! "departure_time");
      simpl in Hbuild; try discriminate.
    injection Hbuild as <-. simpl in Hid. by rewrite Hid.
  - intros r Hr. rewrite Hr in S. by destruct S as (pre & post & _ & Hid & _).
Qed.

Lemma X5_update_then_get_by_id_witness :
  ((∃ f, f ∈ [priced_offer; unpriced_offer] ∧ f !! "flight_id" = Some "AF-1923")
   ↔ ∃ r, get_flight_by_id (update_cache [priced_offer; unpriced_offer] (PStr "London")
                              (PStr "Paris") searched_memory).2 "AF-1923" = Some r)
  ∧ ∀ r, get_flight_by_id (update_cache [priced_offer; unpriced_offer] (PStr "London")
                             (PStr "Paris") searched_memory).2 "AF-1923" = Some r →
         flight_id r = "AF-1923".
Proof.
  apply X5_update_then_get_by_id. repeat constructor; vm_compute; eauto.
Defined.

(** ** Queries and the normal form of names *)

(** X6. The carrier query is blind to case and to spaces: upper-casing,
    lower-casing or removing the spaces of the query changes nothing to what
    find_flight_by_airline returns. *)
Theorem X6_query_case_and_spaces (m : AgentMemory) (q : string) :
  find_flight_by_airline m (PyStr.upper q) = find_flight_by_airline m q
  ∧ find_flight_by_airline m (PyStr.lower q) = find_flight_by_airline m q
  ∧ find_flight_by_airline m (PyStr.remove_spaces q) = find_flight_by_airline m q.
Proof.
  unfold find_flight_by_airline.
  by rewrite lower_upper, lower_lower, lower_remove_spaces, remove_spaces_idem.
Qed.

(** X7. A query made of spaces only, the empty one included, matches every
    carrier: on a non-empty cache find_flight_by_airline returns the first
    record. *)
Theorem X7_blank_query_first_record
    (m : AgentMemory) (q : string) (r : FlightRecord) (rest : list FlightRecord) :
  only_spaces q →
  flight_cache m = r :: rest →
  find_flight_by_airline m q = Some r.
Proof.
  intros Hq Hc. unfold find_flight_by_airline. fold (normalize q).
  rewrite (only_spaces_normalize q Hq), Hc. simpl. by rewrite contains_empty.
Qed.

Lemma X7_blank_query_first_record_witness :
  only_spaces "   "
  ∧ find_flight_by_airline searched_memory "   " = Some british_airways.
Proof.
  assert (H : only_spaces "   ") by reflexivity.
  split; [exact H|].
  exact (X7_blank_query_first_record searched_memory "   " british_airways
           [air_france; lufthansa] H eq_refl).
Defined.

(** ** Prices *)

Lemma filter_chars_app p s t :
  PyStr.filter_chars p (s +:+ t) = PyStr.filter_chars p s +:+ PyStr.filter_chars p t.
Proof.
  induction s as [|c s IH]; simpl; [done|]. destruct (p c); simpl; by rewrite IH.
Qed.

Lemma digits_of_app s t : digits_of (s +:+ t) = digits_of s ++ digits_of t.
Proof.
  induction s as [|c s IH]; simpl; [done|].
  destruct (PyStr.is_digit c); simpl; by rewrite IH.
Qed.

Lemma has_digit_app s t : has_digit (s +:+ t) = has_digit s || has_digit t.
Proof.
  induction s as [|c s IH]; simpl; [done|]. by rewrite IH, orb_assoc.
Qed.

Lemma numeral_app ds es :
  numeral (ds ++ es) = numeral ds * 10 ^ Z.of_nat (length es) + numeral es.
Proof.
  induction ds as [|d ds IH]; simpl numeral; [simpl; lia|].
  rewrite IH, length_app, Nat2Z.inj_add, Z.pow_add_r by lia. ring.
Qed.

Lemma has_digit_digits s : has_digit s = false → digits_of s = [].
Proof.
  induction s as [|c s IH]; simpl; [done|].
  intros [Hc Hs]%orb_false_iff. rewrite Hc. by apply IH.
Qed.

Lemma digit_count_app s t : digit_count (s +:+ t) = digit_count s + digit_count t.
Proof. unfold digit_count. rewrite digits_of_app, length_app. lia. Qed.

Lemma digit_count_no_digit s : has_digit s = false → digit_count s = 0.
Proof. intros H. unfold digit_count. by rewrite (has_digit_digits s H). Qed.

(** X8. Text around and inside a price.  Text without a digit before or
    after a price changes nothing to what is parsed, so a currency sign and
    a unit are both ignored.  Two parts that both have digits, no more than
    4300 between them, are read as one numeral, the digits of the first
    before those of the second, so a thousands separator is harmless while a
    decimal point is lost; with more than 4300 digits between them the
    price is 999999. *)
Theorem X8_parse_price_concatenation (s t : string) :
  (has_digit s = false → parse_price (s +:+ t) = parse_price t)
  ∧ (has_digit s = true → has_digit t = false → parse_price (s +:+ t) = parse_price s)
  ∧ (has_digit s = true → has_digit t = true →
     digit_count s + digit_count t <= int_max_str_digits →
     parse_price (s +:+ t) = parse_price s * 10 ^ digit_count t + parse_price t)
  ∧ (int_max_str_digits < digit_count s + digit_count t →
     parse_price (s +:+ t) = 999999).
Proof.
  destruct (parse_price_spec (s +:+ t)) as [Hst _].
  destruct (parse_price_spec s) as [Hs _]. destruct (parse_price_spec t) as [Ht _].
  rewrite has_digit_app, digit_count_app, digits_of_app, numeral_app in Hst.
  pose proof (Zle_0_nat (length (digits_of s))) as Hs0.
  pose proof (Zle_0_nat (length (digits_of t))) as Ht0.
  fold (digit_count s) in Hs0. fold (digit_count t) in Ht0 |- *. fold (digit_count t) in Hst.
  repeat split.
  - intros H. rewrite H in Hst. rewrite Hst, Ht.
    rewrite (digit_count_no_digit s H), (has_digit_digits s H), Z.add_0_l. simpl.
    destruct (has_digit t); [|done].
    destruct (digit_count t <=? int_max_str_digits); [lia|done].
  - intros H1 H2. rewrite H1 in Hst, Hs. rewrite Hst, Hs.
    rewrite (digit_count_no_digit t H2), (has_digit_digits t H2), Z.add_0_r. simpl.
    destruct (digit_count s <=? int_max_str_digits); [lia|done].
  - intros H1 H2 Hlim. rewrite H1 in Hst, Hs. rewrite H2 in Ht.
    rewrite (proj2 (Z.leb_le _ _)) in Hst by lia.
    rewrite (proj2 (Z.leb_le _ _)) in Hs by lia.
    rewrite (proj2 (Z.leb_le _ _)) in Ht by lia.
    simpl in Hst. by rewrite Hst, Hs, Ht.
  - intros Hlim. apply parse_price_over_limit. by rewrite digit_count_app.
Qed.

Lemma X8_parse_price_concatenation_witness :
  parse_price ("$" +:+ "420") = parse_price "420"
  ∧ parse_price ("420" +:+ " USD") = parse_price "420"
  ∧ parse_price ("1,420" +:+ ".50") = parse_price "1,420" * 10 ^ 2 + parse_price ".50"
  ∧ parse_price (repeat_char "1" 4300 +:+ "1") = 999999.
Proof.
  split; [|split; [|split]].
  - apply (proj1 (X8_parse_price_concatenation "$" "420")). reflexivity.
  - apply (proj1 (proj2 (X8_parse_price_concatenation "420" " USD"))); reflexivity.
  - apply (proj1 (proj2 (proj2 (X8_parse_price_concatenation "1,420" ".50"))));
      [reflexivity | reflexivity | vm_compute; discriminate].
  - apply (proj2 (proj2 (proj2 (X8_parse_price_concatenation (repeat_char "1" 4300) "1")))).
    rewrite digit_count_repeat_one. reflexivity.
Defined.

(** ** Dates and the generation service *)

Lemma resolve_date_pure {S} (w : World) (v : pyval) (st : S) :
  _resolve_date w v st = ((_resolve_date w v tt).1, st).
Proof.
  unfold _resolve_date. destruct (negb (truthy v)); [done|].
  unfold bind, lift, ret. destruct (py_lower v) as [s|e]; [|done].
  destruct (PyStr.contains "tomorrow" s).
  - by destruct (PyDate.add_days (today w) 1).
  - by destruct (PyStr.contains "today" s).
Qed.

(** X9. What _resolve_date does with a reference that is no string: every
    falsy value (null, false, zero, the empty string, list or object)
    resolves to the current date, and every truthy value that is not a
    string raises AttributeError, as it has no [lower]. *)
Theorem X9_resolve_date_other_values {S} (w : World) (v : pyval) (st : S) :
  (truthy v = false →
   _resolve_date w v st = (Ok (PyDate.strftime_Ymd (today w)), st))
  ∧ (truthy v = true → (∀ s, v ≠ PStr s) →
     _resolve_date w v st = (Raise (AttributeError "lower"), st)).
Proof.
  unfold _resolve_date. split.
  - by intros ->.
  - intros -> Hv. simpl. destruct v; try done. by destruct (Hv s).
Qed.

Lemma X9_resolve_date_other_values_witness :
  _resolve_date (sample_world TryRaised) (PList []) tt = (Ok "2024-01-10", tt)
  ∧ _resolve_date (sample_world TryRaised) (PInt 5) tt
    = (Raise (AttributeError "lower"), tt).
Proof.
  split.
  - apply (proj1 (X9_resolve_date_other_values (sample_world TryRaised) (PList []) tt)).
    reflexivity.
  - apply (proj2 (X9_resolve_date_other_values (sample_world TryRaised) (PInt 5) tt));
      [reflexivity | discriminate].
Defined.

Lemma generate_response_run w context s :
  _generate_response w context s
  = (generation_outcome w context, after s [Generation context]).
Proof.
  unfold _generate_response, generation_outcome, bind. rewrite emit_run.
  by destruct (generate w context).
Qed.

Lemma rev_app_spec s t u :
  String.rev_app (String.rev_app s t) u = String.rev_app t (s +:+ u).
Proof.
  revert t u; induction s as [|a s IH]; intros t u; simpl; [done|]. by rewrite IH.
Qed.

Lemma append_cons a s t : String a s +:+ t = String a (s +:+ t).
Proof. reflexivity. Qed.

Lemma append_empty_r s : s +:+ EmptyString = s.
Proof. induction s as [|a s IH]; [done|]. by rewrite append_cons, IH. Qed.

Lemma append_assoc s t u : (s +:+ t) +:+ u = s +:+ (t +:+ u).
Proof. induction s as [|a s IH]; [done|]. by rewrite !append_cons, IH. Qed.

Lemma rev_rev s : String.rev (String.rev s) = s.
Proof. unfold String.rev. rewrite rev_app_spec. apply append_empty_r. Qed.

Lemma rev_app_append s t : String.rev_app s t = String.rev s +:+ t.
Proof.
  unfold String.rev. revert t; induction s as [|a s IH]; intros t; simpl; [done|].
  rewrite (IH (String a t)), (IH (String a EmptyString)).
  by rewrite append_assoc.
Qed.

Lemma drop_while_head s : starts_with_space (PyStr.drop_while PyStr.is_space s) = false.
Proof.
  induction s as [|c s IH]; simpl; [done|].
  destruct (PyStr.is_space c) eqn:Hc; [done|]. simpl. exact Hc.
Qed.

Lemma drop_while_id s :
  starts_with_space s = false → PyStr.drop_while PyStr.is_space s = s.
Proof. destruct s as [|c s]; simpl; [done|]. by intros ->. Qed.

Lemma drop_while_suffix s :
  ∃ pre, s = pre +:+ PyStr.drop_while PyStr.is_space s.
Proof.
  induction s as [|c s [pre IH]]; simpl; [by exists EmptyString|].
  destruct (PyStr.is_space c).
  - exists (String c pre). by rewrite append_cons, <- IH.
  - by exists EmptyString.
Qed.

Lemma rev_app_of_append s t acc :
  String.rev_app (s +:+ t) acc = String.rev_app t (String.rev_app s acc).
Proof.
  revert acc; induction s as [|a s IH]; intros acc; [done|].
  rewrite append_cons. simpl. apply IH.
Qed.

Lemma rev_append s t : String.rev (s +:+ t) = String.rev t +:+ String.rev s.
Proof. unfold String.rev at 1. by rewrite rev_app_of_append, rev_app_append. Qed.

Lemma strip_edges s :
  starts_with_space (PyStr.strip s) = false ∧ ends_with_space (PyStr.strip s) = false.
Proof.
  unfold PyStr.strip, ends_with_space. rewrite rev_rev. split; [|apply drop_while_head].
  set (z := PyStr.drop_while PyStr.is_space s).
  destruct (drop_while_suffix (String.rev z)) as [pre Hpre].
  set (y := PyStr.drop_while PyStr.is_space (String.rev z)) in *.
  apply (f_equal String.rev) in Hpre. rewrite rev_rev, rev_append in Hpre.
  pose proof (drop_while_head s) as Hz. fold z in Hz. rewrite Hpre in Hz.
  destruct (String.rev y); simpl in *; done.
Qed.

(** X10. What _generate_response returns never starts and never ends with
    white space, and stripping it once more changes nothing; whether it
    returns or raises, the call is made once and the memory is untouched. *)
Theorem X10_generated_reply_is_stripped
    (w : World) (context : string) (s : TravelAgentSystem) :
  (_generate_response w context s).2 = after s [Generation context]
  ∧ ∀ reply, (_generate_response w context s).1 = Ok reply →
      starts_with_space reply = false ∧ ends_with_space reply = false
      ∧ PyStr.strip reply = reply.
Proof.
  rewrite generate_response_run. split; [done|]. simpl.
  unfold generation_outcome. destruct (generate w context) as [text|]; [|done].
  intros reply [= <-]. destruct (strip_edges text) as [Hs He].
  split; [done|]. split; [done|].
  unfold PyStr.strip at 1. rewrite (drop_while_id _ Hs).
  unfold ends_with_space in He. rewrite (drop_while_id _ He). apply rev_rev.
Qed.

Lemma X10_generated_reply_is_stripped_witness :
  (_generate_response (sample_world TryRaised) "  3 options  " searched_system).1
    = Ok "3 options"
  ∧ starts_with_space "3 options" = false ∧ ends_with_space "3 options" = false
  ∧ PyStr.strip "3 options" = "3 options".
Proof.
  assert (H : (_generate_response (sample_world TryRaised) "  3 options  "
                 searched_system).1 = Ok "3 options") by (vm_compute; reflexivity).
  split; [exact H|].
  exact (proj2 (X10_generated_reply_is_stripped (sample_world TryRaised)
                  "  3 options  " searched_system) "3 options" H).
Defined.

(** ** The search flow *)

Lemma inventory_update o d m :
  update_cache
    [ offer "BA-2847" "British Airways" "09:00 AM" "$420";
      offer "AF-1923" "Air France" "02:00 PM" "$300";
      offer "LH-5614" "Lufthansa" "08:00 PM" "$600" ] o d m
  = (Ok tt, set_flight_cache (inventory_records o d) m).
Proof.
  rewrite update_cache_complete; [reflexivity|].
  repeat constructor; vm_compute; eauto.
Qed.

Lemma slot_default (d : gmap string pyval) k v :
  match d !! k with Some x => x | None => v end = default v (d !! k).
Proof. by destruct (d !! k). Qed.

Lemma handle_search_run w (d : gmap string pyval) s :
  _handle_search w (PDict d) s =
  match (_resolve_date w (default PNone (d !! "date_reference")) tt).1 with
  | Raise e => (Raise e, s)
  | Ok ds =>
      let o := default (PStr "Unknown") (d !! "origin") in
      let dst := default (PStr "Unknown") (d !! "destination") in
      let context := search_context w o dst ds (inventory_records o dst) in
      (generation_outcome w context,
       {| memory := set_flight_cache (inventory_records o dst) (memory s);
          journal := journal s ++ [SearchInventory o dst ds; Generation context] |})
  end.
Proof.
  unfold _handle_search, bind, lift, py_get. rewrite !slot_default.
  rewrite resolve_date_pure.
  destruct (_resolve_date w (default PNone (d !! "date_reference")) tt).1 as [ds|e];
    [|reflexivity].
  unfold _search_flight_inventory, bind, ret. rewrite emit_run.
  unfold getitem. rewrite lookup_singleton_eq. unfold ret, on_memory.
  rewrite inventory_update. unfold get. rewrite generate_response_run.
  unfold after; simpl. by rewrite <- app_assoc.
Qed.

(** X11. A SEARCH turn whose date reference resolves.  The inventory is
    asked once, with the origin and destination of the payload ("Unknown"
    for an absent key) and the resolved date, and the generation service
    once, in that order.  The memory then holds the three offers of the
    inventory in its order, whatever was cached before, and it does so even
    when the generation service raises, in which case the turn raises. *)
Theorem X11_search_turn
    (w : World) (user_input : string) (d : gmap string pyval)
    (s : TravelAgentSystem) (ds : string) :
  interpret w user_input = TryLoaded (PDict d) →
  d !! "intent" = Some (PStr "SEARCH") →
  _resolve_date w (default PNone (d !! "date_reference")) tt = (Ok ds, tt) →
  ∃ context,
    handle_request w user_input s =
    (generation_outcome w context,
     {| memory :=
          set_flight_cache
            (inventory_records (default (PStr "Unknown") (d !! "origin"))
               (default (PStr "Unknown") (d !! "destination"))) (memory s);
        journal :=
          journal s ++
          [ Interpretation user_input;
            SearchInventory (default (PStr "Unknown") (d !! "origin"))
              (default (PStr "Unknown") (d !! "destination")) ds;
            Generation context ] |}).
Proof.
  intros Hi Hs Hd. eexists.
  rewrite handle_request_run, Hi. simpl. rewrite Hs. simpl.
  rewrite handle_search_run, Hd. simpl. by rewrite <- app_assoc.
Qed.

Lemma X11_search_turn_witness :
  ∃ context,
    handle_request (silent_world (TryLoaded (PDict search_tomorrow)))
      "Find me flights" searched_system =
    (generation_outcome (silent_world (TryLoaded (PDict search_tomorrow))) context,
     {| memory :=
          set_flight_cache
            (inventory_records (default (PStr "Unknown") (search_tomorrow !! "origin"))
               (default (PStr "Unknown") (search_tomorrow !! "destination")))
            (memory searched_system);
        journal :=
          journal searched_system ++
          [ Interpretation "Find me flights";
            SearchInventory (default (PStr "Unknown") (search_tomorrow !! "origin"))
              (default (PStr "Unknown") (search_tomorrow !! "destination")) "2024-01-11";
            Generation context ] |}).
Proof.
  apply (X11_search_turn (silent_world (TryLoaded (PDict search_tomorrow)))
           "Find me flights" search_tomorrow searched_system "2024-01-11");
    vm_compute; reflexivity.
Defined.

(** X12. A SEARCH turn whose date reference does not resolve (a truthy
    value that is no string, or "tomorrow" on the last day of the calendar)
    raises before anything else happens: the inventory is not asked, the
    generation service is not called, and the memory keeps its cache. *)
Theorem X12_search_turn_date_failure
    (w : World) (user_input : string) (d : gmap string pyval)
    (s : TravelAgentSystem) (e : exn) :
  interpret w user_input = TryLoaded (PDict d) →
  d !! "intent" = Some (PStr "SEARCH") →
  _resolve_date w (default PNone (d !! "date_reference")) tt = (Raise e, tt) →
  handle_request w user_input s = (Raise e, after s [Interpretation user_input]).
Proof.
  intros Hi Hs Hd.
  rewrite handle_request_run, Hi. simpl. rewrite Hs. simpl.
  by rewrite handle_search_run, Hd.
Qed.

Lemma X12_search_turn_date_failure_witness :
  handle_request (sample_world (TryLoaded (PDict search_numeric_date))) "flights in 5"
    searched_system
  = (Raise (AttributeError "lower"), after searched_system [Interpretation "flights in 5"]).
Proof.
  apply (X12_search_turn_date_failure
           (sample_world (TryLoaded (PDict search_numeric_date))) "flights in 5"
           search_numeric_date searched_system (AttributeError "lower"));
    vm_compute; reflexivity.
Defined.

(** ** The booking flow *)

Lemma handle_booking_cases w (d : gmap string pyval) s :
  _handle_booking w (PDict d) s =
  match booking_target_of d with
  | Raise e => (Raise e, s)
  | Ok target =>
      match booked_record (memory s) target with
      | Some r =>
          (generation_outcome w (confirmation_context w r (passenger_of d)),
           after s [CommitReservation (flight_id r) (passenger_of d);
                    Generation (confirmation_context w r (passenger_of d))])
      | None => (Ok clarification, s)
      end
  end.
Proof.
  destruct (booking_target_of d) as [target|e] eqn:Ht.
  - rewrite (handle_booking_run w d s target Ht).
    destruct (booked_record (memory s) target); [|done].
    by rewrite generate_response_run, after_after.
  - by apply handle_booking_raises.
Qed.

Lemma handle_booking_memory w data s :
  memory (_handle_booking w data s).2 = memory s.
Proof.
  destruct data as [| | | | |d]; try reflexivity.
  rewrite handle_booking_cases.
  destruct (booking_target_of d) as [target|e]; [|done].
  by destruct (booked_record (memory s) target).
Qed.

(** X13. Only a SEARCH turn writes to the memory.  A turn whose payload is
    not an object with intent "SEARCH" leaves the memory exactly as it found
    it, whether the turn replies or raises: a BOOK turn only reads the
    cache. *)
Theorem X13_only_search_writes_memory
    (w : World) (user_input : string) (s : TravelAgentSystem) :
  (∀ d, interpret w user_input = TryLoaded (PDict d) →
        d !! "intent" ≠ Some (PStr "SEARCH")) →
  memory (handle_request w user_input s).2 = memory s.
Proof.
  intros Hns. rewrite handle_request_run.
  destruct (interpret w user_input) as [|v]; [done|].
  destruct v as [| | | | |d]; try done. simpl.
  specialize (Hns d eq_refl).
  destruct (d !! "intent") as [[| | |t| |]|] eqn:Hi; simpl;
    try (by rewrite handle_booking_memory); try done.
  unfold eq_str. case_bool_decide as H1; [by subst|].
  case_bool_decide; [by rewrite handle_booking_memory|done].
Qed.

Lemma X13_only_search_writes_memory_witness :
  memory (handle_request (sample_world (TryLoaded (PDict book_lufthansa)))
            "book the Lufthansa one" searched_system).2 = memory searched_system.
Proof.
  apply X13_only_search_writes_memory. intros d [= <-]. vm_compute. discriminate.
Defined.

(** X14. The identifier is looked up upper-cased.  When the target does
    not contain "cheapest" and matches no carrier, the record booked, if
    any, has the upper-cased target as its identifier, so a cached record
    whose identifier has a lower-case letter is never booked by identifier;
    with no such record the reply is the clarification. *)
Theorem X14_identifier_fallback_is_upper_case
    (w : World) (d : gmap string pyval) (s : TravelAgentSystem)
    (slot : pyval) (target : string) :
  py_get (PDict d) "booking_target" (PStr EmptyString) = Ok slot →
  py_lower slot = Ok target →
  PyStr.contains "cheapest" target = false →
  find_flight_by_airline (memory s) target = None →
  match get_flight_by_id (memory s) (PyStr.upper target) with
  | Some r =>
      flight_id r = PyStr.upper target
      ∧ no_lowercase (flight_id r)
      ∧ _handle_booking w (PDict d) s =
        _generate_response w (confirmation_context w r (passenger_of d))
          (after s [CommitReservation (flight_id r) (passenger_of d)])
  | None => _handle_booking w (PDict d) s = (Ok clarification, s)
  end.
Proof.
  intros Hslot Hlower Hch Hfind.
  rewrite (handle_booking_run w d s target
             (booking_target_of_steps d slot target Hslot Hlower)).
  unfold booked_record. rewrite Hch, Hfind.
  unfold get_flight_by_id.
  pose proof (get_by_id_in_spec (PyStr.upper target) (flight_cache (memory s))) as S.
  destruct (get_by_id_in (PyStr.upper target) (flight_cache (memory s))) as [r|]; [|done].
  destruct S as (_ & _ & _ & Hid & _). split; [done|]. split; [|done].
  rewrite Hid. apply upper_no_lowercase.
Qed.

Lemma X14_identifier_fallback_is_upper_case_witness :
  flight_id air_france = PyStr.upper "af-1923"
  ∧ no_lowercase (flight_id air_france)
  ∧ _handle_booking (sample_world TryRaised) (PDict book_by_identifier) searched_system =
    _generate_response (sample_world TryRaised)
      (confirmation_context (sample_world TryRaised) air_france
         (passenger_of book_by_identifier))
      (after searched_system
         [CommitReservation (flight_id air_france) (passenger_of book_by_identifier)]).
Proof.
  exact (X14_identifier_fallback_is_upper_case (sample_world TryRaised)
           book_by_identifier searched_system (PStr "af-1923") "af-1923"
           eq_refl eq_refl eq_refl eq_refl).
Defined.

(** X15. Booking the cheapest.  When the target contains "cheapest", the
    turn commits a reservation exactly when the cache is not empty, and then
    for a record of the cache that no record undercuts; on an empty cache,
    before any search, the reply is the clarification. *)
Theorem X15_cheapest_needs_a_cache
    (w : World) (d : gmap string pyval) (s : TravelAgentSystem)
    (slot : pyval) (target : string) :
  py_get (PDict d) "booking_target" (PStr EmptyString) = Ok slot →
  py_lower slot = Ok target →
  PyStr.contains "cheapest" target = true →
  match flight_cache (memory s) with
  | [] => _handle_booking w (PDict d) s = (Ok clarification, s)
  | _ :: _ =>
      ∃ r, r ∈ flight_cache (memory s)
        ∧ (∀ x, x ∈ flight_cache (memory s) → price r <= price x)
        ∧ _handle_booking w (PDict d) s =
          _generate_response w (confirmation_context w r (passenger_of d))
            (after s [CommitReservation (flight_id r) (passenger_of d)])
  end.
Proof.
  intros Hslot Hlower Hch.
  rewrite (handle_booking_run w d s target
             (booking_target_of_steps d slot target Hslot Hlower)).
  unfold booked_record, find_cheapest_flight. rewrite Hch.
  destruct (flight_cache (memory s)) as [|x xs] eqn:Hc; [done|].
  destruct (min_from_spec price x xs) as (pre & post & Heq & Hall & _).
  exists (min_from price x xs). split; [rewrite Heq; set_solver|]. split; [|done].
  intros y Hy. by eapply Forall_forall in Hall; [|exact Hy].
Qed.

Lemma X15_cheapest_needs_a_cache_witness :
  _handle_booking (sample_world TryRaised) (PDict book_cheapest) TravelAgentSystem_init
    = (Ok clarification, TravelAgentSystem_init)
  ∧ ∃ r, r ∈ flight_cache (memory searched_system)
      ∧ (∀ x, x ∈ flight_cache (memory searched_system) → price r <= price x)
      ∧ _handle_booking (sample_world TryRaised) (PDict book_cheapest) searched_system =
        _generate_response (sample_world TryRaised)
          (confirmation_context (sample_world TryRaised) r (passenger_of book_cheapest))
          (after searched_system
             [CommitReservation (flight_id r) (passenger_of book_cheapest)]).
Proof.
  split.
  - exact (X15_cheapest_needs_a_cache (sample_world TryRaised) book_cheapest
             TravelAgentSystem_init (PStr "cheapest") "cheapest" eq_refl eq_refl eq_refl).
  - exact (X15_cheapest_needs_a_cache (sample_world TryRaised) book_cheapest
             searched_system (PStr "cheapest") "cheapest" eq_refl eq_refl eq_refl).
Defined.

(** X16. A reservation is committed before the confirmation is phrased and
    is not taken back: when the target resolves to a record and the
    generation service raises, the turn raises to its caller although the
    reservation has been committed. *)
Theorem X16_commit_survives_generation_failure
    (w : World) (user_input : string) (d : gmap string pyval)
    (s : TravelAgentSystem) (slot : pyval) (target : string) (r : FlightRecord) :
  interpret w user_input = TryLoaded (PDict d) →
  d !! "intent" = Some (PStr "BOOK") →
  py_get (PDict d) "booking_target" (PStr EmptyString) = Ok slot →
  py_lower slot = Ok target →
  booked_record (memory s) target = Some r →
  generate w (confirmation_context w r (passenger_of d)) = None →
  handle_request w user_input s =
  (Raise ServiceError,
   after s [ Interpretation user_input;
             CommitReservation (flight_id r) (passenger_of d);
             Generation (confirmation_context w r (passenger_of d)) ]).
Proof.
  intros Hi Hb Hslot Hlower Hr Hg.
  rewrite (handle_request_book w user_input s d Hi Hb), handle_booking_cases.
  rewrite (booking_target_of_steps d slot target Hslot Hlower). simpl. rewrite Hr.
  unfold generation_outcome. rewrite Hg. by rewrite after_after.
Qed.

Lemma X16_commit_survives_generation_failure_witness :
  handle_request (silent_world (TryLoaded (PDict book_lufthansa)))
    "book the Lufthansa one" searched_system =
  (Raise ServiceError,
   after searched_system
     [ Interpretation "book the Lufthansa one";
       CommitReservation (flight_id lufthansa) (passenger_of book_lufthansa);
       Generation (confirmation_context (silent_world (TryLoaded (PDict book_lufthansa)))
                     lufthansa (passenger_of book_lufthansa)) ]).
Proof.
  apply (X16_commit_survives_generation_failure
           (silent_world (TryLoaded (PDict book_lufthansa))) "book the Lufthansa one"
           book_lufthansa searched_system (PStr "Lufthansa") "lufthansa" lufthansa);
    vm_compute; reflexivity.
Defined.

(** ** Turns and sessions *)

Lemma handle_search_shape w (d : gmap string pyval) s :
  ∃ calls, journal (_handle_search w (PDict d) s).2 = journal s ++ calls
    ∧ turn_shape calls
    ∧ (calls = [] → ∃ e, (_handle_search w (PDict d) s).1 = Raise e)
    ∧ last_search_context (memory (_handle_search w (PDict d) s).2)
      = last_search_context (memory s).
Proof.
  rewrite handle_search_run.
  destruct (_resolve_date w _ tt).1 as [ds|e]; simpl.
  - eexists. split; [done|]. split; [constructor|]. split; [discriminate|done].
  - exists []. rewrite app_nil_r. split; [done|]. split; [constructor|].
    split; [by eexists|done].
Qed.

Lemma handle_booking_shape w (d : gmap string pyval) s :
  ∃ calls, journal (_handle_booking w (PDict d) s).2 = journal s ++ calls
    ∧ turn_shape calls
    ∧ (calls = [] → (_handle_booking w (PDict d) s).1 = Ok clarification
                    ∨ ∃ e, (_handle_booking w (PDict d) s).1 = Raise e).
Proof.
  rewrite handle_booking_cases.
  destruct (booking_target_of d) as [target|e]; simpl.
  - destruct (booked_record (memory s) target); simpl.
    + eexists. split; [done|]. split; [constructor|discriminate].
    + exists []. rewrite app_nil_r. split; [done|]. split; [constructor|]. by left.
  - exists []. rewrite app_nil_r. split; [done|]. split; [constructor|].
    right. by eexists.
Qed.

Lemma turn_protocol (w : World) (user_input : string) (s : TravelAgentSystem) :
  ∃ calls,
    journal (handle_request w user_input s).2
      = journal s ++ Interpretation user_input :: calls
    ∧ turn_shape calls
    ∧ (calls = [] → ∀ reply, (handle_request w user_input s).1 = Ok reply →
                     reply = capability ∨ reply = clarification).
Proof.
  rewrite handle_request_run.
  assert (Hsilent : ∀ r : result string,
            (∀ reply, r = Ok reply → reply = capability ∨ reply = clarification) →
            ∃ calls, journal (r, after s [Interpretation user_input]).2
                       = journal s ++ Interpretation user_input :: calls
              ∧ turn_shape calls
              ∧ (calls = [] → ∀ reply, (r, after s [Interpretation user_input]).1 = Ok reply →
                               reply = capability ∨ reply = clarification)).
  { intros r Hr. exists []. split; [done|]. split; [constructor|]. intros _. exact Hr. }
  destruct (interpret w user_input) as [|v].
  { apply Hsilent. intros reply [= <-]. by left. }
  destruct v as [| | | | |d]; try (apply Hsilent; intros reply; discriminate).
  simpl. destruct (eq_str _ "SEARCH").
  - destruct (handle_search_shape w d (after s [Interpretation user_input]))
      as (calls & Hj & Hshape & Hnil & _).
    exists calls. split; [rewrite Hj; simpl; by rewrite <- app_assoc|].
    split; [done|]. intros Hc reply Hreply.
    destruct (Hnil Hc) as [e He]. congruence.
  - destruct (eq_str _ "BOOK").
    + destruct (handle_booking_shape w d (after s [Interpretation user_input]))
        as (calls & Hj & Hshape & Hnil).
      exists calls. split; [rewrite Hj; simpl; by rewrite <- app_assoc|].
      split; [done|]. intros Hc reply Hreply.
      destruct (Hnil Hc) as [H|[e He]]; [right|]; congruence.
    + apply Hsilent. intros reply [= <-]. by left.
Qed.

(** X17. The calls of one turn.  Every turn starts with one interpretation
    call and goes on in one of three ways: no further call; one inventory
    search then one generation call; or one reservation commit then one
    generation call.  A turn that makes no further call and returns a reply
    returns one of the two fixed messages. *)
Theorem X17_turn_protocol (w : World) (user_input : string) (s : TravelAgentSystem) :
  ∃ calls,
    journal (handle_request w user_input s).2
      = journal s ++ Interpretation user_input :: calls
    ∧ turn_shape calls
    ∧ (calls = [] → ∀ reply, (handle_request w user_input s).1 = Ok reply →
                     reply = capability ∨ reply = clarification).
Proof. apply turn_protocol. Qed.

Lemma turn_shape_no_interpretation calls :
  turn_shape calls → filter (λ e, is_interpretation e = true) calls = [].
Proof. by intros []. Qed.

Lemma handle_request_context w user_input s :
  last_search_context (memory (handle_request w user_input s).2)
  = last_search_context (memory s).
Proof.
  rewrite handle_request_run.
  destruct (interpret w user_input) as [|v]; [done|].
  destruct v as [| | | | |d]; try done. simpl.
  destruct (eq_str _ "SEARCH").
  - by destruct (handle_search_shape w d (after s [Interpretation user_input]))
      as (_ & _ & _ & _ & ->).
  - destruct (eq_str _ "BOOK"); [|done]. by rewrite handle_booking_memory.
Qed.

(** X18. A session.  Every message gets its turn, also after a turn that
    raised: run_turns gives one outcome per message, only adds to the
    journal, and the interpretation calls it adds are those of the messages,
    one each, in order. *)
Theorem X18_session_interprets_every_message
    (ws : list (World * string)) (s : TravelAgentSystem) :
  length (run_turns ws s).1 = length ws
  ∧ ∃ calls,
      journal (run_turns ws s).2 = journal s ++ calls
      ∧ filter (λ e, is_interpretation e = true) calls
        = (λ turn, Interpretation turn.2) <$> ws.
Proof.
  revert s; induction ws as [|[w msg] ws IH]; intros s; simpl.
  - split; [done|]. exists []. by rewrite app_nil_r.
  - destruct (handle_request w msg s) as [r s'] eqn:Hr.
    destruct (turn_protocol w msg s) as (calls & Hj & Hshape & _).
    rewrite Hr in Hj. simpl in Hj.
    destruct (IH s') as (Hlen & calls' & Hj' & Hf).
    destruct (run_turns ws s') as [rs s'']. simpl in *.
    split; [by rewrite Hlen|].
    exists ((Interpretation msg :: calls) ++ calls').
    split; [by rewrite Hj', Hj, <- app_assoc|].
    rewrite filter_app, filter_cons_True by done.
    by rewrite (turn_shape_no_interpretation _ Hshape), Hf.
Qed.

(** X19. The search context is never recorded: no turn of a session
    writes to last_search_context, which therefore stays empty from the
    creation of the orchestrator on. *)
Theorem X19_search_context_never_written (ws : list (World * string)) :
  last_search_context (memory (run_turns ws TravelAgentSystem_init).2) = ∅.
Proof.
  change (∅ : gmap string pyval)
    with (last_search_context (memory TravelAgentSystem_init)).
  generalize TravelAgentSystem_init.
  induction ws as [|[w msg] ws IH]; intros s; simpl; [done|].
  pose proof (handle_request_context w msg s) as Hc.
  destruct (handle_request w msg s) as [r s']. simpl in Hc.
  specialize (IH s'). destruct (run_turns ws s') as [rs s'']. simpl in *. congruence.
Qed.

(** ** Payloads of the wrong shape *)

(** X20. A payload that is not an object.  When the response of the
    interpretation parses to anything but a JSON object, the turn raises
    AttributeError on the payload's missing [get], after the interpretation
    call alone and without touching the memory. *)
Theorem X20_non_object_payload_raises
    (w : World) (user_input : string) (s : TravelAgentSystem) (v : pyval) :
  interpret w user_input = TryLoaded v →
  (∀ d, v ≠ PDict d) →
  handle_request w user_input s
  = (Raise (AttributeError "get"), after s [Interpretation user_input]).
Proof.
  intros Hi Hv. rewrite handle_request_run, Hi.
  destruct v as [| | | | |d]; try done. by destruct (Hv d).
Qed.

Lemma X20_non_object_payload_raises_witness :
  handle_request (sample_world (TryLoaded (PStr "BOOK"))) "book it" searched_system
  = (Raise (AttributeError "get"), after searched_system [Interpretation "book it"]).
Proof.
  apply (X20_non_object_payload_raises (sample_world (TryLoaded (PStr "BOOK")))
           "book it" searched_system (PStr "BOOK")); [reflexivity | discriminate].
Defined.

(** X21. A booking target that is not a string.  When the booking_target
    key of a BOOK payload holds anything but a string (null, a number, a
    boolean, a list, an object), the turn raises AttributeError on the
    missing [lower] before any record is looked up: nothing is committed,
    nothing generated, and the memory is untouched. *)
Theorem X21_non_string_target_raises
    (w : World) (user_input : string) (d : gmap string pyval)
    (s : TravelAgentSystem) (v : pyval) :
  interpret w user_input = TryLoaded (PDict d) →
  d !! "intent" = Some (PStr "BOOK") →
  d !! "booking_target" = Some v →
  (∀ t, v ≠ PStr t) →
  handle_request w user_input s
  = (Raise (AttributeError "lower"), after s [Interpretation user_input]).
Proof.
  intros Hi Hb Hv Hns.
  rewrite (handle_request_book w user_input s d Hi Hb).
  apply handle_booking_raises. unfold booking_target_of. rewrite Hv.
  destruct v; try done. by destruct (Hns s0).
Qed.

Lemma X21_non_string_target_raises_witness :
  handle_request (sample_world (TryLoaded (PDict book_numeric_target))) "book 2847"
    searched_system
  = (Raise (AttributeError "lower"), after searched_system [Interpretation "book 2847"]).
Proof.
  apply (X21_non_string_target_raises
           (sample_world (TryLoaded (PDict book_numeric_target))) "book 2847"
           book_numeric_target searched_system (PInt 2847));
    [reflexivity | reflexivity | reflexivity | discriminate].
Defined.

(** ** The reservation tool *)

Lemma length_map_chars f s : String.length (PyStr.map_chars f s) = String.length s.
Proof. induction s as [|c s IH]; simpl; [done|]. by rewrite IH. Qed.

Lemma length_take n s : String.length (PyStr.take n s) = (n `min` String.length s)%nat.
Proof.
  revert s; induction n as [|n IH]; intros s; [done|].
  destruct s as [|c s]; [done|]. simpl. by rewrite IH.
Qed.

(** X22. What _commit_reservation returns.  The call is journalled once
    and leaves the memory alone; the result echoes the identifier and the
    passenger it was given, has status "CONFIRMED", and its confirmation
    code is "PNR" followed by the first six characters of the uuid,
    upper-cased: at most six characters after "PNR", exactly six when the
    uuid has that many, none of them a lower-case letter. *)
Theorem X22_commit_reservation_result
    (w : World) (fid : string) (passenger : pyval) (s : TravelAgentSystem) :
  ∃ booking_result,
    _commit_reservation w fid passenger s
      = (Ok booking_result, after s [CommitReservation fid passenger])
    ∧ booking_result !! "flight_id" = Some (PStr fid)
    ∧ booking_result !! "passenger" = Some passenger
    ∧ booking_result !! "status" = Some (PStr "CONFIRMED")
    ∧ booking_result !! "pnr"
      = Some (PStr ("PNR" +:+ PyStr.upper (PyStr.take 6 (uuid4 w))))
    ∧ String.length (PyStr.upper (PyStr.take 6 (uuid4 w)))
      = (6 `min` String.length (uuid4 w))%nat
    ∧ no_lowercase (PyStr.upper (PyStr.take 6 (uuid4 w))).
Proof.
  eexists.
  unfold _commit_reservation, bind, ret. rewrite emit_run.
  split; [reflexivity|].
  destruct (booking_result_lookup (PStr "CONFIRMED")
              (PStr ("PNR" +:+ PyStr.upper (PyStr.take 6 (uuid4 w))))
              (PStr fid) passenger) as (H1 & H2 & H3 & H4).
  repeat split; try done.
  - unfold PyStr.upper. by rewrite length_map_chars, length_take.
  - apply upper_no_lowercase.
Qed.
